(** * Story image converter: a shallow embedding and its verified properties

    The repository ships two variants of one client-side library that turns
    a user photo into a 1080x1920 JPEG: a centre-crop variant and a
    blurred-background ("blur-pad") variant.  Both share the validation,
    decoding, encoding and naming code and differ only in
    [convertToStorySize].

    The embedding follows the TypeScript text:
    - JS [number] arithmetic is an interface [JSNumber], instantiated with
      IEEE binary64 (primitive floats), which is what the browser computes;
      statements that do not depend on rounding are proved for any
      instance;
    - browser primitives ([createImageBitmap], [getContext], [toBlob], the
      clock) are fields of a [Platform] record;
    - effects ([bitmap.close()], canvas creation, exceptions and
      [try]/[catch]) live in a small state-and-exception monad whose state
      is the log of platform calls;
    - the download helper and the page component work on a [Dom] record
      (children of [body], live object URLs, downloads started, the file
      input's selection); the page is its four state cells, its three
      handlers and what it renders, and a session is any interleaving of
      user actions with the continuations of conversions in flight. *)

From Stdlib Require Import ZArith QArith Floats Uint63.
From Stdlib Require Import List Sorted String Ascii Bool Lia DecimalString.
Import ListNotations.

Local Open Scope string_scope.
Local Open Scope Z_scope.

(* Decimal float literals stand for the nearest double, as in JavaScript. *)
#[local] Set Warnings "-inexact-float".

(** ** JavaScript numbers *)

Module JS.

(** The operations on [number] that the library uses. *)
Class JSNumber (num : Type) : Type := {
  of_Z : Z -> num;
  add : num -> num -> num;
  sub : num -> num -> num;
  mul : num -> num -> num;
  div : num -> num -> num;
  opp : num -> num;
  gtb : num -> num -> bool
}.

(** IEEE 754 binary64, the arithmetic of the running program.  Integers
    below 2^62 in magnitude go through the primitive conversion, larger
    ones through correctly rounded normalisation. *)
Definition float_of_Z (z : Z) : float :=
  if Z.abs z <? 4611686018427387904 then
    if z <? 0 then PrimFloat.opp (PrimFloat.of_uint63 (Uint63.of_Z (- z)))
    else PrimFloat.of_uint63 (Uint63.of_Z z)
  else SF2Prim (binary_normalize prec emax z 0 false).

#[export] Instance binary64 : JSNumber float := {
  of_Z := float_of_Z;
  add := PrimFloat.add;
  sub := PrimFloat.sub;
  mul := PrimFloat.mul;
  div := PrimFloat.div;
  opp := PrimFloat.opp;
  gtb := fun a b => PrimFloat.ltb b a
}.

(** [Number.prototype.toString()] on an integer value below 10^21 in
    magnitude, where JavaScript prints plain decimal digits (beyond that it
    switches to exponent form, which this does not model); the library
    prints years, clock fields, 10 and 4096. *)
Definition toString (n : Z) : string := NilZero.string_of_int (Z.to_int n).

(** [String.prototype.padStart(maxLength, fillString)]: [fillString] is
    repeated and truncated to the missing length. *)
Fixpoint repeat_truncated (n : nat) (fill rest : string) : string :=
  match n with
  | O => EmptyString
  | S k =>
      match rest with
      | String c rest' => String c (repeat_truncated k fill rest')
      | EmptyString =>
          match fill with
          | String c fill' => String c (repeat_truncated k fill fill')
          | EmptyString => EmptyString
          end
      end
  end.

Definition padStart (s : string) (maxLength : nat) (fillString : string) : string :=
  let stringLength := String.length s in
  if (maxLength <=? stringLength)%nat then s
  else if (String.length fillString =? 0)%nat then s
  else repeat_truncated (maxLength - stringLength) fillString fillString ++ s.

(** [Array.prototype.includes] on an array of strings: strict,
    case-sensitive equality with some element. *)
Definition includes (l : list string) (x : string) : bool :=
  existsb (String.eqb x) l.

(** A thrown value: an [Error] object with its message, or anything else. *)
Inductive Thrown : Type :=
| ErrorObject (message : string)
| NonError.

(** [e instanceof Error ? e.message : "Unknown error"] *)
Definition message_of (e : Thrown) : string :=
  match e with
  | ErrorObject m => m
  | NonError => "Unknown error"
  end.

End JS.
Import JS.

(** ** Data model *)

(** A [File]: its declared media type and byte length are all the library
    reads; the name tells files apart. *)
Record File : Type := {
  file_name : string;
  file_size : Z;
  file_type : string
}.

(** An [ImageBitmap], with the integer dimensions the decoder reports. *)
Record ImageBitmap : Type := {
  bitmap_id : nat;
  width : Z;
  height : Z
}.

Inductive Blob : Type :=
| mkBlob (type : string) (bytes : list Byte.byte).

(** The local-time getters of a [Date]; [getMonth] counts from 0. *)
Record Date : Type := {
  getFullYear : Z;
  getMonth : Z;
  getDate : Z;
  getHours : Z;
  getMinutes : Z;
  getSeconds : Z
}.

Inductive ConversionError : Type :=
| NO_FILE
| FILE_TOO_LARGE (maxSize actualSize : Z)
| INVALID_MIME_TYPE (allowed : list string) (actual : string)
| PIXEL_EXCEEDED (maxDimension width height : Z)
| DECODE_FAILED (message : string)
| CONVERSION_FAILED (message : string).

Inductive ConversionResult : Type :=
| Success (blob : Blob) (filename : string)
| Failure (error : ConversionError).

(** One [ctx.drawImage(image, sx, sy, sw, sh, dx, dy, dw, dh)] call,
    together with the value of [ctx.filter] when it was issued. *)
Record DrawCall (num : Type) : Type := {
  dc_filter : string;
  dc_image : ImageBitmap;
  dc_sx : num; dc_sy : num; dc_sw : num; dc_sh : num;
  dc_dx : num; dc_dy : num; dc_dw : num; dc_dh : num
}.
Arguments dc_filter {num}.
Arguments dc_image {num}.
Arguments dc_sx {num}.
Arguments dc_sy {num}.
Arguments dc_sw {num}.
Arguments dc_sh {num}.
Arguments dc_dx {num}.
Arguments dc_dy {num}.
Arguments dc_dw {num}.
Arguments dc_dh {num}.

(** A canvas element: its size and the draw calls it received, oldest
    first. *)
Record Canvas (num : Type) : Type := {
  canvas_width : Z;
  canvas_height : Z;
  canvas_drawn : list (DrawCall num)
}.
Arguments canvas_width {num}.
Arguments canvas_height {num}.
Arguments canvas_drawn {num}.

(** A 2D rendering context: the canvas it draws on and its [filter]. *)
Record Context2D (num : Type) : Type := {
  ctx_canvas : Canvas num;
  ctx_filter : string
}.
Arguments ctx_canvas {num}.
Arguments ctx_filter {num}.

(** The browser primitives the library calls. *)
Record Platform (num : Type) : Type := {
  (** [createImageBitmap(file, {imageOrientation: "from-image"})]:
      rejects, or resolves to an upright bitmap. *)
  createImageBitmap : File -> Thrown + ImageBitmap;
  (** whether [canvas.getContext("2d")] returns a context or [null] *)
  context2d_available : bool;
  (** what [canvas.toBlob] passes to its callback: a blob or [null] *)
  toBlob : Canvas num -> string -> Q -> option Blob;
  (** what [new Date()] returns *)
  clock : Date
}.
Arguments createImageBitmap {num}.
Arguments context2d_available {num}.
Arguments toBlob {num}.
Arguments clock {num}.

(** Platform calls with an effect outside the library's own values. *)
Inductive Event (num : Type) : Type :=
| EvCreateImageBitmap (f : File)
| EvClose (b : ImageBitmap)
| EvCreateCanvas
| EvToBlob (c : Canvas num).
Arguments EvCreateImageBitmap {num}.
Arguments EvClose {num}.
Arguments EvCreateCanvas {num}.
Arguments EvToBlob {num}.

(** ** Effects: a log of platform calls, and exceptions *)

Module Eff.

Definition M (num A : Type) : Type :=
  list (Event num) -> (Thrown + A) * list (Event num).

Definition ret {num A} (a : A) : M num A := fun log => (inr a, log).

Definition bind {num A B} (m : M num A) (k : A -> M num B) : M num B :=
  fun log =>
    match m log with
    | (inr a, log') => k a log'
    | (inl e, log') => (inl e, log')
    end.

Definition throw {num A} (e : Thrown) : M num A := fun log => (inl e, log).

Definition emit {num} (ev : Event num) : M num unit :=
  fun log => (inr tt, (log ++ [ev])%list).

(** [try { body } catch (e) { handler(e) }] *)
Definition try_catch {num A} (body : M num A) (handler : Thrown -> M num A)
  : M num A :=
  fun log =>
    match body log with
    | (inr a, log') => (inr a, log')
    | (inl e, log') => handler e log'
    end.

(** A promise settled by the platform, awaited. *)
Definition await {num A} (r : Thrown + A) : M num A := fun log => (r, log).

End Eff.
Import Eff.

Declare Scope eff_scope.
Delimit Scope eff_scope with eff.
Notation "x <- m ;; k" := (bind m (fun x => k))
  (at level 61, m at next level, right associativity) : eff_scope.
Notation "m ;;; k" := (bind m (fun _ => k))
  (at level 61, right associativity) : eff_scope.
Local Open Scope eff_scope.

(** ** The code shared by both variants *)

Definition OUTPUT_WIDTH : Z := 1080.
Definition OUTPUT_HEIGHT : Z := 1920.
Definition JPEG_QUALITY : Q := 9 # 10.
Definition BLUR_AMOUNT : Z := 30.

Definition MAX_FILE_SIZE : Z := 10 * 1024 * 1024.
Definition MAX_PIXEL_DIMENSION : Z := 4096.
Definition ALLOWED_MIME_TYPES : list string := ["image/jpeg"; "image/png"].

Definition validateFile (file : File) : option ConversionError :=
  if file_size file >? MAX_FILE_SIZE then
    Some (FILE_TOO_LARGE MAX_FILE_SIZE (file_size file))
  else if negb (includes ALLOWED_MIME_TYPES (file_type file)) then
    Some (INVALID_MIME_TYPE ALLOWED_MIME_TYPES (file_type file))
  else None.

Definition validateDimensions (width height : Z) : option ConversionError :=
  if (width >? MAX_PIXEL_DIMENSION) || (height >? MAX_PIXEL_DIMENSION) then
    Some (PIXEL_EXCEEDED MAX_PIXEL_DIMENSION width height)
  else None.

(** [generateFilename] reads the clock and formats its local-time fields. *)
Definition generateFilename {num} (P : Platform num) : string :=
  let now := clock P in
  let pad := fun n : Z => padStart (toString n) 2 "0" in
  let dateStr :=
    toString (getFullYear now) ++ pad (getMonth now + 1) ++ pad (getDate now) in
  let timeStr :=
    pad (getHours now) ++ pad (getMinutes now) ++ pad (getSeconds now) in
  "story_" ++ dateStr ++ "_" ++ timeStr ++ ".jpg".

Section Shared.

Context {num : Type} {NUM : JSNumber num}.
Variable P : Platform num.

Definition loadImage (file : File) : M num ImageBitmap :=
  emit (EvCreateImageBitmap file) ;;;
  await (createImageBitmap P file).

(** [bitmap.close()] *)
Definition close (bitmap : ImageBitmap) : M num unit :=
  emit (EvClose bitmap).

(** [document.createElement("canvas")]: a fresh 300x150 canvas. *)
Definition createElement_canvas : M num (Canvas num) :=
  emit EvCreateCanvas ;;;
  ret {| canvas_width := 300; canvas_height := 150; canvas_drawn := [] |}.

Definition set_width (c : Canvas num) (w : Z) : Canvas num :=
  {| canvas_width := w; canvas_height := canvas_height c;
     canvas_drawn := canvas_drawn c |}.

Definition set_height (c : Canvas num) (h : Z) : Canvas num :=
  {| canvas_width := canvas_width c; canvas_height := h;
     canvas_drawn := canvas_drawn c |}.

(** [canvas.getContext("2d")] *)
Definition getContext_2d (c : Canvas num) : option (Context2D num) :=
  if context2d_available P
  then Some {| ctx_canvas := c; ctx_filter := "none" |}
  else None.

Definition set_filter (ctx : Context2D num) (f : string) : Context2D num :=
  {| ctx_canvas := ctx_canvas ctx; ctx_filter := f |}.

Definition drawImage (ctx : Context2D num) (image : ImageBitmap)
  (sx sy sw sh dx dy dw dh : num) : Context2D num :=
  let c := ctx_canvas ctx in
  let call := {| dc_filter := ctx_filter ctx; dc_image := image;
                 dc_sx := sx; dc_sy := sy; dc_sw := sw; dc_sh := sh;
                 dc_dx := dx; dc_dy := dy; dc_dw := dw; dc_dh := dh |} in
  {| ctx_canvas :=
       {| canvas_width := canvas_width c; canvas_height := canvas_height c;
          canvas_drawn := (canvas_drawn c ++ [call])%list |};
     ctx_filter := ctx_filter ctx |}.

Definition canvasToJpegBlob (canvas : Canvas num) : M num Blob :=
  emit (EvToBlob canvas) ;;;
  match toBlob P canvas "image/jpeg" JPEG_QUALITY with
  | Some blob => ret blob
  | None => throw (ErrorObject "Failed to create blob")
  end.

End Shared.

(** The orchestrator is the same text in both variants; only the
    [convertToStorySize] it calls differs. *)
Module Pipeline.
Section Orchestrator.

Context {num : Type} {NUM : JSNumber num}.
Variable P : Platform num.
Variable convertToStorySize : ImageBitmap -> M num (Canvas num).

Definition convertImage (file : option File) : M num ConversionResult :=
  match file with
  | None => ret (Failure NO_FILE)
  | Some file =>
      match validateFile file with
      | Some fileError => ret (Failure fileError)
      | None =>
          (* the first try/catch either binds [bitmap] or returns early *)
          loaded <- try_catch
                      (bitmap <- loadImage P file ;; ret (inr bitmap))
                      (fun e =>
                         ret (inl (Failure (DECODE_FAILED (message_of e))))) ;;
          match loaded with
          | inl early => ret early
          | inr bitmap =>
              match validateDimensions (width bitmap) (height bitmap) with
              | Some dimensionError =>
                  close bitmap ;;;
                  ret (Failure dimensionError)
              | None =>
                  try_catch
                    (canvas <- convertToStorySize bitmap ;;
                     close bitmap ;;;
                     blob <- canvasToJpegBlob P canvas ;;
                     let filename := generateFilename P in
                     ret (Success blob filename))
                    (fun e =>
                       ret (Failure (CONVERSION_FAILED (message_of e))))
              end
          end
      end
  end.

End Orchestrator.
End Pipeline.

(** ** Variant 1: centre crop *)

Module CropFill.
Section Variant.

Context {num : Type} {NUM : JSNumber num}.
Variable P : Platform num.

Definition convertToStorySize (bitmap : ImageBitmap) : M num (Canvas num) :=
  canvas <- createElement_canvas ;;
  let canvas := set_width canvas OUTPUT_WIDTH in
  let canvas := set_height canvas OUTPUT_HEIGHT in
  match getContext_2d P canvas with
  | None => throw (ErrorObject "Canvas context not available")
  | Some ctx =>
      let sourceWidth := of_Z (width bitmap) in
      let sourceHeight := of_Z (height bitmap) in
      let outputAspect := div (of_Z OUTPUT_WIDTH) (of_Z OUTPUT_HEIGHT) in
      let inputAspect := div sourceWidth sourceHeight in
      let '(srcX, srcY, srcWidth, srcHeight) :=
        if gtb inputAspect outputAspect then
          let srcHeight := sourceHeight in
          let srcWidth := mul sourceHeight outputAspect in
          let srcX := div (sub sourceWidth srcWidth) (of_Z 2) in
          let srcY := of_Z 0 in
          (srcX, srcY, srcWidth, srcHeight)
        else
          let srcWidth := sourceWidth in
          let srcHeight := div sourceWidth outputAspect in
          let srcX := of_Z 0 in
          let srcY := div (sub sourceHeight srcHeight) (of_Z 2) in
          (srcX, srcY, srcWidth, srcHeight) in
      let ctx :=
        drawImage ctx bitmap srcX srcY srcWidth srcHeight
          (of_Z 0) (of_Z 0) (of_Z OUTPUT_WIDTH) (of_Z OUTPUT_HEIGHT) in
      ret (ctx_canvas ctx)
  end.

Definition convertImage : option File -> M num ConversionResult :=
  Pipeline.convertImage P convertToStorySize.

End Variant.
End CropFill.

(** ** Variant 2: blurred background, whole image in front *)

Module BlurPad.
Section Variant.

Context {num : Type} {NUM : JSNumber num}.
Variable P : Platform num.

Definition convertToStorySize (bitmap : ImageBitmap) : M num (Canvas num) :=
  canvas <- createElement_canvas ;;
  let canvas := set_width canvas OUTPUT_WIDTH in
  let canvas := set_height canvas OUTPUT_HEIGHT in
  match getContext_2d P canvas with
  | None => throw (ErrorObject "Canvas context not available")
  | Some ctx =>
      let sourceWidth := of_Z (width bitmap) in
      let sourceHeight := of_Z (height bitmap) in
      let outputAspect := div (of_Z OUTPUT_WIDTH) (of_Z OUTPUT_HEIGHT) in
      let inputAspect := div sourceWidth sourceHeight in
      (* background layer *)
      let '(bgSrcX, bgSrcY, bgSrcWidth, bgSrcHeight) :=
        if gtb inputAspect outputAspect then
          let bgSrcHeight := sourceHeight in
          let bgSrcWidth := mul sourceHeight outputAspect in
          let bgSrcX := div (sub sourceWidth bgSrcWidth) (of_Z 2) in
          let bgSrcY := of_Z 0 in
          (bgSrcX, bgSrcY, bgSrcWidth, bgSrcHeight)
        else
          let bgSrcWidth := sourceWidth in
          let bgSrcHeight := div sourceWidth outputAspect in
          let bgSrcX := of_Z 0 in
          let bgSrcY := div (sub sourceHeight bgSrcHeight) (of_Z 2) in
          (bgSrcX, bgSrcY, bgSrcWidth, bgSrcHeight) in
      let ctx := set_filter ctx ("blur(" ++ toString BLUR_AMOUNT ++ "px)") in
      let ctx :=
        drawImage ctx bitmap bgSrcX bgSrcY bgSrcWidth bgSrcHeight
          (opp (of_Z BLUR_AMOUNT)) (opp (of_Z BLUR_AMOUNT))
          (add (of_Z OUTPUT_WIDTH) (mul (of_Z BLUR_AMOUNT) (of_Z 2)))
          (add (of_Z OUTPUT_HEIGHT) (mul (of_Z BLUR_AMOUNT) (of_Z 2))) in
      let ctx := set_filter ctx "none" in
      (* foreground layer *)
      let '(fgDestWidth, fgDestHeight) :=
        if gtb inputAspect outputAspect then
          let fgDestWidth := of_Z OUTPUT_WIDTH in
          let fgDestHeight := div (of_Z OUTPUT_WIDTH) inputAspect in
          (fgDestWidth, fgDestHeight)
        else
          let fgDestHeight := of_Z OUTPUT_HEIGHT in
          let fgDestWidth := mul (of_Z OUTPUT_HEIGHT) inputAspect in
          (fgDestWidth, fgDestHeight) in
      let fgDestX := div (sub (of_Z OUTPUT_WIDTH) fgDestWidth) (of_Z 2) in
      let fgDestY := div (sub (of_Z OUTPUT_HEIGHT) fgDestHeight) (of_Z 2) in
      let ctx :=
        drawImage ctx bitmap (of_Z 0) (of_Z 0) sourceWidth sourceHeight
          fgDestX fgDestY fgDestWidth fgDestHeight in
      ret (ctx_canvas ctx)
  end.

Definition convertImage : option File -> M num ConversionResult :=
  Pipeline.convertImage P convertToStorySize.

End Variant.
End BlurPad.

(** ** The rest of the library: messages and download *)

(** The [type] tag of an error, the discriminant of the union. *)
Definition error_type (error : ConversionError) : string :=
  match error with
  | NO_FILE => "NO_FILE"
  | FILE_TOO_LARGE _ _ => "FILE_TOO_LARGE"
  | INVALID_MIME_TYPE _ _ => "INVALID_MIME_TYPE"
  | PIXEL_EXCEEDED _ _ _ => "PIXEL_EXCEEDED"
  | DECODE_FAILED _ => "DECODE_FAILED"
  | CONVERSION_FAILED _ => "CONVERSION_FAILED"
  end.

(** [Math.floor(maxSize / 1024 / 1024)] is the floor of the quotient by
    2^20 (dividing a double by 1024 is exact), which is what two integer
    floor divisions compute. *)
Definition getErrorMessage (error : ConversionError) : string :=
  match error with
  | NO_FILE => "ファイルを選択してください"
  | FILE_TOO_LARGE maxSize _ =>
      "ファイルサイズは" ++ toString (maxSize / 1024 / 1024)
        ++ "MB以下にしてください"
  | INVALID_MIME_TYPE _ _ => "JPEG/PNG形式のみ対応しています"
  | PIXEL_EXCEEDED maxDimension _ _ =>
      "画像サイズは" ++ toString maxDimension ++ "px以下にしてください"
  | DECODE_FAILED _ => "画像の読み込みに失敗しました"
  | CONVERSION_FAILED _ => "画像の処理に失敗しました"
  end.

(** What an object URL stands for. *)
Inductive Resource : Type :=
| ResBlob (b : Blob)
| ResFile (f : File).

(** An object URL, a fresh non-empty "blob:..." string each time; the
    number tells them apart. *)
Inductive ObjectUrl : Type :=
| BlobUrl (n : nat).

Definition url_number (u : ObjectUrl) : nat :=
  match u with BlobUrl n => n end.

(** An [<a>] element: its identity and the two attributes set on it. *)
Record Anchor : Type := {
  node_id : nat;
  href : option ObjectUrl;
  download : option string
}.

(** The part of the document the code touches: the children of
    [document.body] (node identities, in order), the live object URLs, the
    downloads started so far, and the selection of the file input. *)
Record Dom : Type := {
  body : list nat;
  next_node : nat;
  object_urls : list (nat * Resource);
  next_url : nat;
  downloads : list (option Resource * string);
  input_file : option File
}.

Module DOM.

Definition lookup_url (u : ObjectUrl) (d : Dom) : option Resource :=
  option_map snd
    (find (fun entry => Nat.eqb (fst entry) (url_number u)) (object_urls d)).

(** [URL.createObjectURL(resource)] *)
Definition createObjectURL (r : Resource) (d : Dom) : ObjectUrl * Dom :=
  (BlobUrl (next_url d),
   {| body := body d; next_node := next_node d;
      object_urls := (object_urls d ++ [(next_url d, r)])%list;
      next_url := S (next_url d);
      downloads := downloads d; input_file := input_file d |}).

(** [URL.revokeObjectURL(url)]: forgets the URL; does nothing for a URL
    that is not live. *)
Definition revokeObjectURL (u : ObjectUrl) (d : Dom) : Dom :=
  {| body := body d; next_node := next_node d;
     object_urls :=
       filter (fun entry => negb (Nat.eqb (fst entry) (url_number u)))
         (object_urls d);
     next_url := next_url d;
     downloads := downloads d; input_file := input_file d |}.

(** [document.createElement("a")] *)
Definition createElement_a (d : Dom) : Anchor * Dom :=
  ({| node_id := next_node d; href := None; download := None |},
   {| body := body d; next_node := S (next_node d);
      object_urls := object_urls d; next_url := next_url d;
      downloads := downloads d; input_file := input_file d |}).

(** [document.body.appendChild(a)]: the node becomes the last child (moved
    there if it already was a child). *)
Definition appendChild (a : Anchor) (d : Dom) : Dom :=
  {| body :=
       (filter (fun n => negb (Nat.eqb n (node_id a))) (body d)
          ++ [node_id a])%list;
     next_node := next_node d;
     object_urls := object_urls d; next_url := next_url d;
     downloads := downloads d; input_file := input_file d |}.

(** [document.body.removeChild(a)]: throws when [a] is not a child. *)
Definition removeChild (a : Anchor) (d : Dom) : (Thrown + unit) * Dom :=
  if existsb (Nat.eqb (node_id a)) (body d) then
    (inr tt,
     {| body := filter (fun n => negb (Nat.eqb n (node_id a))) (body d);
        next_node := next_node d;
        object_urls := object_urls d; next_url := next_url d;
        downloads := downloads d; input_file := input_file d |})
  else (inl (ErrorObject "NotFoundError"), d).

(** [a.click()] on an anchor with a [download] attribute: the browser
    starts a download of what [href] resolves to at that moment, under the
    given name.  Without both attributes nothing is downloaded. *)
Definition click (a : Anchor) (d : Dom) : Dom :=
  match href a, download a with
  | Some u, Some name =>
      {| body := body d; next_node := next_node d;
         object_urls := object_urls d; next_url := next_url d;
         downloads := (downloads d ++ [(lookup_url u d, name)])%list;
         input_file := input_file d |}
  | _, _ => d
  end.

(** [input.value = ""] on the file input: clears its selection. *)
Definition clear_input (d : Dom) : Dom :=
  {| body := body d; next_node := next_node d;
     object_urls := object_urls d; next_url := next_url d;
     downloads := downloads d; input_file := None |}.

(** The user picks a file (or none) in the file dialog. *)
Definition choose_file (f : option File) (d : Dom) : Dom :=
  {| body := body d; next_node := next_node d;
     object_urls := object_urls d; next_url := next_url d;
     downloads := downloads d; input_file := f |}.

End DOM.

Definition downloadBlob (blob : Blob) (filename : string) (d : Dom)
  : (Thrown + unit) * Dom :=
  let '(url, d) := DOM.createObjectURL (ResBlob blob) d in
  let '(a, d) := DOM.createElement_a d in
  let a := {| node_id := node_id a; href := Some url; download := download a |} in
  let a := {| node_id := node_id a; href := href a; download := Some filename |} in
  let d := DOM.appendChild a d in
  let d := DOM.click a d in
  match DOM.removeChild a d with
  | (inl e, d) => (inl e, d)
  | (inr _, d) => (inr tt, DOM.revokeObjectURL url d)
  end.

(** ** The page: component state, handlers and what is rendered *)

Module Page.

Inductive Status : Type :=
| StIdle
| StProcessing
| StSuccess
| StError.

(** The four [useState] cells of the component. *)
Record State : Type := {
  status : Status;
  error : option ConversionError;
  selectedFileName : option string;
  previewUrl : option ObjectUrl
}.

Definition initial : State :=
  {| status := StIdle; error := None;
     selectedFileName := None; previewUrl := None |}.

(** A change event of the file input; [e.target.files?.[0]] is the input's
    current selection. *)
Definition handleFileChange (s : State) (d : Dom) : State * Dom :=
  match input_file d with
  | Some file =>
      let d :=
        match previewUrl s with
        | Some u => DOM.revokeObjectURL u d
        | None => d
        end in
      let '(u, d) := DOM.createObjectURL (ResFile file) d in
      ({| status := StIdle; error := None;
          selectedFileName := Some (file_name file);
          previewUrl := Some u |}, d)
  | None =>
      ({| status := status s; error := error s;
          selectedFileName := None; previewUrl := None |}, d)
  end.

Definition handleReset (s : State) (d : Dom) : State * Dom :=
  let d := DOM.clear_input d in
  match previewUrl s with
  | Some u =>
      ({| status := StIdle; error := None;
          selectedFileName := None; previewUrl := None |},
       DOM.revokeObjectURL u d)
  | None =>
      ({| status := StIdle; error := None;
          selectedFileName := None; previewUrl := previewUrl s |}, d)
  end.

Section Convert.

Context {num : Type}.
(** The [convertImage] the page imports: either variant. *)
Variable convertImage : option File -> M num ConversionResult.

(** [handleConvert] up to its [await]: the state it sets, and the settled
    conversion (a rejection would leave the handler suspended for good). *)
Definition handleConvert_start (s : State) (d : Dom) (log : list (Event num))
  : State * (Thrown + ConversionResult) * list (Event num) :=
  let file := input_file d in
  let s := {| status := StProcessing; error := None;
              selectedFileName := selectedFileName s;
              previewUrl := previewUrl s |} in
  let '(result, log) := convertImage file log in
  (s, result, log).

(** [handleConvert] after its [await], on the state of that moment. *)
Definition handleConvert_finish (result : ConversionResult) (s : State) (d : Dom)
  : State * Dom :=
  match result with
  | Success blob filename =>
      match downloadBlob blob filename d with
      | (inr _, d) =>
          ({| status := StSuccess; error := error s;
              selectedFileName := selectedFileName s;
              previewUrl := previewUrl s |}, d)
      | (inl _, d) => (s, d)
      end
  | Failure e =>
      ({| status := StError; error := Some e;
          selectedFileName := selectedFileName s;
          previewUrl := previewUrl s |}, d)
  end.

(** [handleConvert] when nothing else happens during its [await]. *)
Definition handleConvert (s : State) (d : Dom) (log : list (Event num))
  : State * Dom * list (Event num) :=
  match handleConvert_start s d log with
  | (s, inr result, log) =>
      let '(s, d) := handleConvert_finish result s d in (s, d, log)
  | (s, inl _, log) => (s, d, log)
  end.

End Convert.

(** JavaScript truthiness of a [string | null]. *)
Definition truthy (o : option string) : bool :=
  match o with
  | Some s => negb (String.eqb s "")
  | None => false
  end.

(** What the JSX shows, as far as it depends on the state. *)
Record View : Type := {
  preview_image : option ObjectUrl;
  error_banner : option string;
  success_banner : bool;
  convert_disabled : bool;
  convert_busy : bool;
  reset_button : bool
}.

Definition render (s : State) : View :=
  {| preview_image := previewUrl s;
     error_banner :=
       match status s, error s with
       | StError, Some e => Some (getErrorMessage e)
       | _, _ => None
       end;
     success_banner :=
       match status s with StSuccess => true | _ => false end;
     convert_disabled :=
       negb (truthy (selectedFileName s))
       || match status s with StProcessing => true | _ => false end;
     convert_busy :=
       match status s with StProcessing => true | _ => false end;
     reset_button :=
       truthy (selectedFileName s)
       || match status s with StIdle => false | _ => true end |}.

(** A session: the component, the document, the platform log and the
    conversions that are settled but whose continuation has not run yet. *)
Record Session (num : Type) : Type := {
  ui : State;
  dom : Dom;
  platform_log : list (Event num);
  pending : list ConversionResult
}.
Arguments ui {num}.
Arguments dom {num}.
Arguments platform_log {num}.
Arguments pending {num}.

(** What can happen next: the user picks a file or dismisses the dialog
    (a change event), clicks a button (a disabled or hidden button does
    nothing), or the continuation of a conversion in flight runs. *)
Inductive Action : Type :=
| Pick (f : option File)
| ClickConvert
| ClickReset
| Resume (i : nat).

Section Sessions.

Context {num : Type}.
Variable convertImage : option File -> M num ConversionResult.

Definition step (x : Session num) (a : Action) : Session num :=
  match a with
  | Pick f =>
      let '(s, d) := handleFileChange (ui x) (DOM.choose_file f (dom x)) in
      {| ui := s; dom := d; platform_log := platform_log x;
         pending := pending x |}
  | ClickConvert =>
      if convert_disabled (render (ui x)) then x
      else
        match handleConvert_start convertImage (ui x) (dom x) (platform_log x) with
        | (s, inr result, log) =>
            {| ui := s; dom := dom x; platform_log := log;
               pending := (pending x ++ [result])%list |}
        | (s, inl _, log) =>
            {| ui := s; dom := dom x; platform_log := log;
               pending := pending x |}
        end
  | ClickReset =>
      if reset_button (render (ui x)) then
        let '(s, d) := handleReset (ui x) (dom x) in
        {| ui := s; dom := d; platform_log := platform_log x;
           pending := pending x |}
      else x
  | Resume i =>
      match nth_error (pending x) i with
      | Some result =>
          let '(s, d) := handleConvert_finish result (ui x) (dom x) in
          {| ui := s; dom := d; platform_log := platform_log x;
             pending := (firstn i (pending x) ++ skipn (S i) (pending x))%list |}
      | None => x
      end
  end.

Definition run (x : Session num) (actions : list Action) : Session num :=
  fold_left step actions x.

End Sessions.

Definition start {num} (d : Dom) : Session num :=
  {| ui := initial; dom := d; platform_log := []; pending := [] |}.

End Page.

(** ** Vocabulary of the specification *)

(** How often [bitmap.close()] was called on [b] in a log. *)
Definition is_close {num} (b : ImageBitmap) (ev : Event num) : bool :=
  match ev with
  | EvClose b' => Nat.eqb (bitmap_id b') (bitmap_id b)
  | _ => false
  end.

Definition close_count {num} (b : ImageBitmap) (log : list (Event num)) : nat :=
  List.length (filter (is_close b) log).

(** Whether the compositor ran: it starts by creating its canvas. *)
Definition is_compositor_event {num} (ev : Event num) : bool :=
  match ev with
  | EvCreateCanvas => true
  | _ => false
  end.

Definition compositor_invoked {num} (log : list (Event num)) : bool :=
  existsb is_compositor_event log.

(** The source rectangle of a draw call. *)
Definition src_rect {num} (c : DrawCall num) : num * num * num * num :=
  (dc_sx c, dc_sy c, dc_sw c, dc_sh c).

(** Fixed-width decimal fields, as the file-name format words them. *)
Definition digit (d : Z) : ascii := ascii_of_nat (48 + Z.to_nat d).

Definition two_digits (n : Z) : string :=
  String (digit (n / 10)) (String (digit (n mod 10)) EmptyString).

Definition four_digits (n : Z) : string :=
  String (digit (n / 1000)) (String (digit (n / 100 mod 10))
    (String (digit (n / 10 mod 10)) (String (digit (n mod 10)) EmptyString))).

(** The fields of a [Date] that [new Date()] can produce, in a year
    written with four digits. *)
Definition local_time_in_range (d : Date) : Prop :=
  1000 <= getFullYear d <= 9999 /\ 0 <= getMonth d <= 11
  /\ 1 <= getDate d <= 31 /\ 0 <= getHours d <= 23
  /\ 0 <= getMinutes d <= 59 /\ 0 <= getSeconds d <= 59.

(** A boolean test on each of the [n] integers from [lo] upwards. *)
Fixpoint forall_from (f : Z -> bool) (lo : Z) (n : nat) : bool :=
  match n with
  | O => true
  | S k => f lo && forall_from f (lo + 1) k
  end.

Definition forall_between (f : Z -> bool) (lo hi : Z) : bool :=
  forall_from f lo (Z.to_nat (hi - lo + 1)).

(** The pipeline stage a platform call belongs to. *)
Definition stage {num} (ev : Event num) : nat :=
  match ev with
  | EvCreateImageBitmap _ => 0
  | EvCreateCanvas => 1
  | EvClose _ => 2
  | EvToBlob _ => 3
  end.

(** Reading a file name back: decimal fields at fixed positions. *)
Definition digit_value (c : ascii) : Z := Z.of_nat (nat_of_ascii c) - 48.

Fixpoint read_decimal_from (acc : Z) (s : string) : Z :=
  match s with
  | EmptyString => acc
  | String c rest => read_decimal_from (10 * acc + digit_value c) rest
  end.

Definition read_decimal (s : string) : Z := read_decimal_from 0 s.

Definition parse_filename (name : string) : Date :=
  {| getFullYear := read_decimal (substring 6 4 name);
     getMonth := read_decimal (substring 10 2 name) - 1;
     getDate := read_decimal (substring 12 2 name);
     getHours := read_decimal (substring 15 2 name);
     getMinutes := read_decimal (substring 17 2 name);
     getSeconds := read_decimal (substring 19 2 name) |}.

(** The six messages a user can be shown for a failed conversion. *)
Definition conversion_messages : list string :=
  ["ファイルを選択してください";
   "ファイルサイズは10MB以下にしてください";
   "JPEG/PNG形式のみ対応しています";
   "画像サイズは4096px以下にしてください";
   "画像の読み込みに失敗しました";
   "画像の処理に失敗しました"].

(** The numbers of the nodes under [body] and of the live object URLs are
    below the counters that fresh ones are taken from. *)
Definition dom_wf (d : Dom) : Prop :=
  Forall (fun n => (n < next_node d)%nat) (body d)
  /\ Forall (fun entry => (fst entry < next_url d)%nat) (object_urls d).

(** The only live object URL, if any, is the preview's. *)
Definition only_preview_is_live (s : Page.State) (d : Dom) : Prop :=
  match Page.previewUrl s with
  | Some u => exists r, object_urls d = [(url_number u, r)]
  | None => object_urls d = []
  end.

(** A download that resolved to a blob. *)
Definition is_blob_download (entry : option Resource * string) : Prop :=
  exists blob, fst entry = Some (ResBlob blob).

(** What every reachable session keeps, relative to the document [d0] the
    page was loaded into. *)
Definition session_ok {num} (d0 : Dom) (x : Page.Session num) : Prop :=
  dom_wf (Page.dom x)
  /\ body (Page.dom x) = body d0
  /\ Forall is_blob_download (downloads (Page.dom x))
  /\ (Page.status (Page.ui x) = Page.StError -> Page.error (Page.ui x) <> None)
  /\ (forall u, Page.previewUrl (Page.ui x) = Some u ->
               (url_number u < next_url (Page.dom x))%nat).

(** How a conversion started from state [s] and document [d] has ended,
    given the result [r] that [convertImage] settled with: the file name
    and preview are kept, the document body and the live URLs are as
    before, and on a success the status is success, the error is clear, the
    success banner shows and one download was started, of that result's
    blob under that result's file name; on a failure the status is error,
    the error is that result's error, the banner shows its message and no
    download was started. *)
Definition conversion_settled (r : ConversionResult) (s : Page.State)
  (d : Dom) (out : Page.State * Dom) : Prop :=
  let '(s', d') := out in
  Page.selectedFileName s' = Page.selectedFileName s
  /\ Page.previewUrl s' = Page.previewUrl s
  /\ body d' = body d
  /\ object_urls d' = object_urls d
  /\ match r with
     | Success blob filename =>
         Page.status s' = Page.StSuccess
         /\ Page.error s' = None
         /\ Page.success_banner (Page.render s') = true
         /\ Page.error_banner (Page.render s') = None
         /\ downloads d' =
              (downloads d ++ [(Some (ResBlob blob), filename)])%list
     | Failure e =>
         Page.status s' = Page.StError
         /\ Page.error s' = Some e
         /\ Page.error_banner (Page.render s') = Some (getErrorMessage e)
         /\ Page.success_banner (Page.render s') = false
         /\ downloads d' = downloads d
     end.

(** The integers from [lo] upwards, [n] of them, and a table of the
    dimensions [lo..hi] with their binary64 values; a boolean test on every
    pair of entries of a table. *)
Fixpoint integers_from (lo : Z) (n : nat) : list Z :=
  match n with
  | O => []
  | S k => lo :: integers_from (lo + 1) k
  end.

Definition dimension_table (lo hi : Z) : list (Z * float) :=
  map (fun z => (z, float_of_Z z)) (integers_from lo (Z.to_nat (hi - lo + 1))).

Definition forall_pairs (f : Z -> float -> Z -> float -> bool)
  (table : list (Z * float)) : bool :=
  forallb
    (fun p => forallb (fun q => f (fst p) (snd p) (fst q) (snd q)) table)
    table.

(** ** Sample inputs *)

Module Samples.

Definition march_5th_2024 : Date :=
  {| getFullYear := 2024; getMonth := 2; getDate := 5;
     getHours := 9; getMinutes := 7; getSeconds := 2 |}.

Definition bitmap (w h : Z) : ImageBitmap :=
  {| bitmap_id := 1; width := w; height := h |}.

Definition jpeg_blob : Blob := mkBlob "image/jpeg" [].

(** A browser that decodes every file to a [w] x [h] bitmap and encodes
    every canvas; [ctx] says whether 2D contexts are available. *)
Definition browser (num : Type) (w h : Z) (ctx : bool) : Platform num :=
  {| createImageBitmap := fun _ => inr (bitmap w h);
     context2d_available := ctx;
     toBlob := fun _ _ _ => Some jpeg_blob;
     clock := march_5th_2024 |}.

Definition photo : File :=
  {| file_name := "photo.jpg"; file_size := 2000000; file_type := "image/jpeg" |}.

Definition huge_gif : File :=
  {| file_name := "huge.gif"; file_size := 10485761; file_type := "image/gif" |}.

Definition shouting_jpeg : File :=
  {| file_name := "photo.JPG"; file_size := 1024; file_type := "image/JPEG" |}.

End Samples.

(** More sample browsers and documents. *)
Module Lab.

(** A browser whose decoder rejects every file with a non-[Error] value. *)
Definition no_decoder (num : Type) : Platform num :=
  {| createImageBitmap := fun _ => inl NonError;
     context2d_available := true;
     toBlob := fun _ _ _ => Some Samples.jpeg_blob;
     clock := Samples.march_5th_2024 |}.

(** A browser whose [toBlob] always hands [null] to its callback. *)
Definition no_encoder (num : Type) (w h : Z) : Platform num :=
  {| createImageBitmap := fun _ => inr (Samples.bitmap w h);
     context2d_available := true;
     toBlob := fun _ _ _ => None;
     clock := Samples.march_5th_2024 |}.

(** A document with two nodes under [body] and no live object URL. *)
Definition document : Dom :=
  {| body := [0; 1]%nat; next_node := 2; object_urls := []; next_url := 0;
     downloads := []; input_file := None |}.

End Lab.

(** * Properties *)

(** ** The JavaScript primitives, on examples *)

Example padStart_examples :
  padStart "7" 2 "0" = "07" /\ padStart "12" 2 "0" = "12"
  /\ padStart "123" 2 "0" = "123" /\ padStart "x" 6 "ab" = "ababax"
  /\ padStart "x" 3 "" = "x".
Proof. repeat split. Qed.

Example toString_examples :
  toString 2024 = "2024" /\ toString 0 = "0" /\ toString (-5) = "-5".
Proof. repeat split. Qed.

Example binary64_examples :
  div (of_Z 1080) (of_Z 1920) = 0.5625%float
  /\ div (of_Z 1) (of_Z 0) = infinity
  /\ gtb (div (of_Z 0) (of_Z 0)) (of_Z 0 : float) = false
  /\ float_of_Z (2 ^ 53 + 1) = 9007199254740992%float.
Proof. repeat split. Qed.

Example includes_is_case_sensitive :
  includes ALLOWED_MIME_TYPES "image/png" = true
  /\ includes ALLOWED_MIME_TYPES "image/PNG" = false
  /\ includes ALLOWED_MIME_TYPES "" = false.
Proof. repeat split. Qed.

(** ** Validation *)

Lemma MAX_FILE_SIZE_value : MAX_FILE_SIZE = 10485760.
Proof. reflexivity. Qed.

Lemma validateFile_too_large (f : File) :
  file_size f > 10485760 ->
  validateFile f = Some (FILE_TOO_LARGE 10485760 (file_size f)).
Proof.
  intros H. unfold validateFile. rewrite MAX_FILE_SIZE_value.
  destruct (Z.gtb_spec (file_size f) 10485760) as [_ | Hle]; [reflexivity | lia].
Qed.

Lemma includes_allowed (t : string) :
  includes ALLOWED_MIME_TYPES t = true <-> t = "image/jpeg" \/ t = "image/png".
Proof.
  unfold includes, ALLOWED_MIME_TYPES. simpl.
  rewrite !orb_true_iff, !String.eqb_eq. intuition discriminate.
Qed.

Lemma validateFile_bad_type (f : File) :
  file_size f <= 10485760 ->
  file_type f <> "image/jpeg" -> file_type f <> "image/png" ->
  validateFile f =
    Some (INVALID_MIME_TYPE ["image/jpeg"; "image/png"] (file_type f)).
Proof.
  intros Hsz Hj Hp. unfold validateFile. rewrite MAX_FILE_SIZE_value.
  destruct (Z.gtb_spec (file_size f) 10485760) as [Hgt | _]; [lia |].
  destruct (includes ALLOWED_MIME_TYPES (file_type f)) eqn:E.
  - apply includes_allowed in E. tauto.
  - reflexivity.
Qed.

Lemma validateFile_none (f : File) :
  validateFile f = None <->
  file_size f <= 10485760
  /\ (file_type f = "image/jpeg" \/ file_type f = "image/png").
Proof.
  unfold validateFile. rewrite MAX_FILE_SIZE_value.
  destruct (Z.gtb_spec (file_size f) 10485760) as [Hgt | Hle].
  - split; [discriminate | lia].
  - destruct (includes ALLOWED_MIME_TYPES (file_type f)) eqn:E; simpl.
    + apply includes_allowed in E. tauto.
    + split; [discriminate |]. intros [_ H].
      apply includes_allowed in H. congruence.
Qed.

Lemma validateDimensions_spec (w h : Z) :
  validateDimensions w h =
    if Z_le_dec w 4096 then
      if Z_le_dec h 4096 then None else Some (PIXEL_EXCEEDED 4096 w h)
    else Some (PIXEL_EXCEEDED 4096 w h).
Proof.
  unfold validateDimensions, MAX_PIXEL_DIMENSION.
  destruct (Z.gtb_spec w 4096), (Z.gtb_spec h 4096),
    (Z_le_dec w 4096), (Z_le_dec h 4096); simpl; try reflexivity; lia.
Qed.

(** ** The orchestrator *)

Ltac unfold_eff :=
  unfold CropFill.convertImage, BlurPad.convertImage, Pipeline.convertImage,
    CropFill.convertToStorySize, BlurPad.convertToStorySize,
    loadImage, canvasToJpegBlob, createElement_canvas, getContext_2d, close,
    try_catch, bind, ret, throw, emit, await in *.

Section OrchestratorFacts.

Context {num : Type} {NUM : JSNumber num}.
Variable P : Platform num.
Variable compose : ImageBitmap -> M num (Canvas num).

(** A file rejected by [validateFile] stops the call before any platform
    call is made. *)
Lemma convertImage_invalid_file (f : File) (e : ConversionError) log :
  validateFile f = Some e ->
  Pipeline.convertImage P compose (Some f) log = (inr (Failure e), log).
Proof.
  intros H. unfold Pipeline.convertImage. rewrite H. reflexivity.
Qed.

(** A decoded bitmap that fails the dimension guard is closed and nothing
    else happens. *)
Lemma convertImage_guard_rejects (f : File) (b : ImageBitmap) (e : ConversionError) :
  validateFile f = None ->
  createImageBitmap P f = inr b ->
  validateDimensions (width b) (height b) = Some e ->
  Pipeline.convertImage P compose (Some f) [] =
    (inr (Failure e), [EvCreateImageBitmap f; EvClose b]).
Proof.
  intros Hf Hd He. unfold_eff. rewrite Hf. simpl. rewrite Hd, He. reflexivity.
Qed.

(** A bitmap that passes the guard is handed to the compositor; when the
    compositor throws, the call ends in the [catch] without closing. *)
Lemma convertImage_compositor_throws (f : File) (b : ImageBitmap) e log' :
  validateFile f = None ->
  createImageBitmap P f = inr b ->
  validateDimensions (width b) (height b) = None ->
  compose b [EvCreateImageBitmap f] = (inl e, log') ->
  Pipeline.convertImage P compose (Some f) [] =
    (inr (Failure (CONVERSION_FAILED (message_of e))), log').
Proof.
  intros Hf Hd He Hc. unfold_eff. rewrite Hf. simpl. rewrite Hd, He, Hc.
  reflexivity.
Qed.

(** When the compositor returns a canvas, the bitmap is closed next and the
    canvas goes to the encoder. *)
Lemma convertImage_compositor_returns (f : File) (b : ImageBitmap) c log' :
  validateFile f = None ->
  createImageBitmap P f = inr b ->
  validateDimensions (width b) (height b) = None ->
  compose b [EvCreateImageBitmap f] = (inr c, log') ->
  Pipeline.convertImage P compose (Some f) [] =
    (inr match toBlob P c "image/jpeg" JPEG_QUALITY with
         | Some blob => Success blob (generateFilename P)
         | None => Failure (CONVERSION_FAILED "Failed to create blob")
         end,
     (log' ++ [EvClose b; EvToBlob c])%list).
Proof.
  intros Hf Hd He Hc. unfold_eff. rewrite Hf. simpl. rewrite Hd, He, Hc.
  rewrite <- app_assoc. simpl.
  destruct (toBlob P c "image/jpeg" JPEG_QUALITY); reflexivity.
Qed.

End OrchestratorFacts.

Section CompositorRuns.

Context {num : Type} {NUM : JSNumber num}.
Variable P : Platform num.

(** Without a 2D context both compositors throw right after creating the
    canvas. *)
Lemma compositors_throw_without_context (b : ImageBitmap) log :
  context2d_available P = false ->
  CropFill.convertToStorySize P b log =
    (inl (ErrorObject "Canvas context not available"), (log ++ [EvCreateCanvas])%list)
  /\ BlurPad.convertToStorySize P b log =
    (inl (ErrorObject "Canvas context not available"), (log ++ [EvCreateCanvas])%list).
Proof.
  intros H. unfold_eff. rewrite H. split; reflexivity.
Qed.

(** With a 2D context both compositors return a canvas, and the only
    platform call they log is the canvas creation. *)
Lemma compositors_return_with_context (b : ImageBitmap) log :
  context2d_available P = true ->
  (exists c, CropFill.convertToStorySize P b log =
               (inr c, (log ++ [EvCreateCanvas])%list))
  /\ (exists c, BlurPad.convertToStorySize P b log =
               (inr c, (log ++ [EvCreateCanvas])%list)).
Proof.
  intros H. unfold_eff. rewrite H. simpl. split.
  - destruct (gtb _ _); eexists; reflexivity.
  - destruct (gtb _ _); eexists; reflexivity.
Qed.

End CompositorRuns.

Lemma close_count_single {num} (b : ImageBitmap) (pre post : list (Event num)) :
  close_count b pre = 0%nat -> close_count b post = 0%nat ->
  close_count b (pre ++ EvClose b :: post) = 1%nat.
Proof.
  unfold close_count. intros Hpre Hpost.
  rewrite filter_app, length_app, Hpre. simpl.
  rewrite Nat.eqb_refl. simpl. now rewrite Hpost.
Qed.

(** X6: every exit path of [convertImage] after a successful decode, with the
    number of [close] calls on the decoded bitmap: one on each path except
    the one where the compositor throws, where there is none. *)
Lemma close_count_on_every_path {num} {NUM : JSNumber num}
  (P : Platform num) (f : File) (b : ImageBitmap) :
  validateFile f = None ->
  createImageBitmap P f = inr b ->
  let leaked :=
    match validateDimensions (width b) (height b) with
    | Some _ => false
    | None => negb (context2d_available P)
    end in
  close_count b (snd (CropFill.convertImage P (Some f) [])) =
    (if leaked then 0%nat else 1%nat)
  /\ close_count b (snd (BlurPad.convertImage P (Some f) [])) =
    (if leaked then 0%nat else 1%nat).
Proof.
  intros Hf Hd leaked. subst leaked.
  destruct (validateDimensions (width b) (height b)) as [e |] eqn:He.
  - unfold CropFill.convertImage, BlurPad.convertImage.
    rewrite !(convertImage_guard_rejects P _ f b e Hf Hd He). simpl.
    split; apply (close_count_single b [EvCreateImageBitmap f] []); reflexivity.
  - destruct (context2d_available P) eqn:Hctx.
    + destruct (compositors_return_with_context P b [EvCreateImageBitmap f] Hctx)
        as [[c1 H1] [c2 H2]].
      unfold CropFill.convertImage, BlurPad.convertImage.
      rewrite (convertImage_compositor_returns P _ f b c1 _ Hf Hd He H1).
      rewrite (convertImage_compositor_returns P _ f b c2 _ Hf Hd He H2).
      simpl. split.
      * apply (close_count_single b [EvCreateImageBitmap f; EvCreateCanvas]
                 [EvToBlob c1]); reflexivity.
      * apply (close_count_single b [EvCreateImageBitmap f; EvCreateCanvas]
                 [EvToBlob c2]); reflexivity.
    + destruct (compositors_throw_without_context P b [EvCreateImageBitmap f] Hctx)
        as [H1 H2].
      unfold CropFill.convertImage, BlurPad.convertImage.
      rewrite (convertImage_compositor_throws P _ f b _ _ Hf Hd He H1).
      rewrite (convertImage_compositor_throws P _ f b _ _ Hf Hd He H2).
      split; reflexivity.
Qed.

(** C3 (the code departs from the claim): a valid photo decoded to a
    100x100 bitmap, in a browser that hands out no 2D context.  The
    compositor throws, [convertImage] returns CONVERSION_FAILED, and the
    log holds no [close] of the decoded bitmap: the [catch] branch returns
    without releasing it, in both variants. *)
Theorem bitmap_not_closed_when_compositor_throws :
  let P := Samples.browser float 100 100 false in
  let b := Samples.bitmap 100 100 in
  let outcome :=
    (inr (Failure (CONVERSION_FAILED "Canvas context not available")),
     [EvCreateImageBitmap Samples.photo; EvCreateCanvas]) in
  createImageBitmap P Samples.photo = inr b
  /\ CropFill.convertImage P (Some Samples.photo) [] = outcome
  /\ BlurPad.convertImage P (Some Samples.photo) [] = outcome
  /\ close_count b (snd outcome) = 0%nat.
Proof. repeat split. Qed.

(** C5: a file larger than 10485760 bytes is rejected with FILE_TOO_LARGE
    carrying the limit and the file's size, whatever its declared type, and
    before any platform call; in both variants. *)
Theorem oversized_file_is_rejected {num} {NUM : JSNumber num}
  (P : Platform num) (f : File) (log : list (Event num)) :
  file_size f > 10485760 ->
  CropFill.convertImage P (Some f) log =
    (inr (Failure (FILE_TOO_LARGE 10485760 (file_size f))), log)
  /\ BlurPad.convertImage P (Some f) log =
    (inr (Failure (FILE_TOO_LARGE 10485760 (file_size f))), log).
Proof.
  intros H. apply validateFile_too_large in H.
  split; apply convertImage_invalid_file; exact H.
Qed.

Lemma oversized_file_is_rejected_witness :
  file_size Samples.huge_gif > 10485760
  /\ CropFill.convertImage (Samples.browser float 100 100 true)
       (Some Samples.huge_gif) [] =
     (inr (Failure (FILE_TOO_LARGE 10485760 10485761)), []).
Proof.
  split; [reflexivity |].
  apply (oversized_file_is_rejected (Samples.browser float 100 100 true)
           Samples.huge_gif []).
  reflexivity.
Defined.

(** C6: a file within the size limit whose declared type is neither
    "image/jpeg" nor "image/png" (compared as exact strings) is rejected
    with INVALID_MIME_TYPE carrying the allowed list and the declared type;
    in both variants. *)
Theorem unsupported_type_is_rejected {num} {NUM : JSNumber num}
  (P : Platform num) (f : File) (log : list (Event num)) :
  file_size f <= 10485760 ->
  file_type f <> "image/jpeg" ->
  file_type f <> "image/png" ->
  CropFill.convertImage P (Some f) log =
    (inr (Failure (INVALID_MIME_TYPE ["image/jpeg"; "image/png"] (file_type f))),
     log)
  /\ BlurPad.convertImage P (Some f) log =
    (inr (Failure (INVALID_MIME_TYPE ["image/jpeg"; "image/png"] (file_type f))),
     log).
Proof.
  intros Hsz Hj Hp.
  pose proof (validateFile_bad_type f Hsz Hj Hp) as H.
  split; apply convertImage_invalid_file; exact H.
Qed.

Lemma unsupported_type_is_rejected_witness :
  CropFill.convertImage (Samples.browser float 100 100 true)
    (Some Samples.shouting_jpeg) [] =
  (inr (Failure (INVALID_MIME_TYPE ["image/jpeg"; "image/png"] "image/JPEG")), []).
Proof.
  apply (unsupported_type_is_rejected (Samples.browser float 100 100 true)
           Samples.shouting_jpeg []).
  - discriminate.
  - discriminate.
  - discriminate.
Defined.

(** C7: when the decoded bitmap is wider or taller than 4096, the call
    returns PIXEL_EXCEEDED with the limit and both dimensions; its platform
    calls are the decode and one [close] of the bitmap, so the bitmap is
    released and the compositor never runs; in both variants. *)
Theorem oversized_bitmap_is_rejected {num} {NUM : JSNumber num}
  (P : Platform num) (f : File) (b : ImageBitmap) :
  validateFile f = None ->
  createImageBitmap P f = inr b ->
  width b > 4096 \/ height b > 4096 ->
  let outcome :=
    (inr (Failure (PIXEL_EXCEEDED 4096 (width b) (height b))),
     [EvCreateImageBitmap f; EvClose b]) in
  CropFill.convertImage P (Some f) [] = outcome
  /\ BlurPad.convertImage P (Some f) [] = outcome
  /\ close_count b (snd outcome) = 1%nat
  /\ compositor_invoked (snd outcome) = false.
Proof.
  intros Hf Hd Hbig outcome. subst outcome.
  assert (He : validateDimensions (width b) (height b) =
               Some (PIXEL_EXCEEDED 4096 (width b) (height b))).
  { rewrite validateDimensions_spec.
    destruct (Z_le_dec (width b) 4096), (Z_le_dec (height b) 4096);
      try reflexivity; lia. }
  repeat split.
  - apply convertImage_guard_rejects; assumption.
  - apply convertImage_guard_rejects; assumption.
  - apply (close_count_single b [EvCreateImageBitmap f] []); reflexivity.
Qed.

Lemma oversized_bitmap_is_rejected_witness :
  CropFill.convertImage (Samples.browser float 5000 3000 true)
    (Some Samples.photo) [] =
  (inr (Failure (PIXEL_EXCEEDED 4096 5000 3000)),
   [EvCreateImageBitmap Samples.photo; EvClose (Samples.bitmap 5000 3000)]).
Proof.
  apply (oversized_bitmap_is_rejected (Samples.browser float 5000 3000 true)
           Samples.photo (Samples.bitmap 5000 3000)).
  - reflexivity.
  - reflexivity.
  - left. reflexivity.
Defined.

(** ** File names *)

Lemma forall_from_spec (f : Z -> bool) (n : nat) :
  forall lo, forall_from f lo n = true ->
  forall z, lo <= z < lo + Z.of_nat n -> f z = true.
Proof.
  induction n as [| k IH]; intros lo H z Hz.
  - simpl in Hz. lia.
  - simpl in H. apply andb_true_iff in H as [Hlo Hrest].
    destruct (Z.eq_dec z lo) as [-> | Hne]; [exact Hlo |].
    apply (IH (lo + 1) Hrest). lia.
Qed.

Lemma forall_between_spec (f : Z -> bool) (lo hi : Z) :
  forall_between f lo hi = true -> forall z, lo <= z <= hi -> f z = true.
Proof.
  unfold forall_between. intros H z Hz.
  apply (forall_from_spec f _ lo H). lia.
Qed.

(** [pad] prints the values 0..99 as exactly two digits. *)
Lemma pad_two_digits (n : Z) :
  0 <= n <= 99 -> padStart (toString n) 2 "0" = two_digits n.
Proof.
  intros H. apply String.eqb_eq.
  apply (forall_between_spec
           (fun z => String.eqb (padStart (toString z) 2 "0") (two_digits z))
           0 99); [vm_compute; reflexivity | lia].
Qed.

(** The years 1000..9999 print as exactly four digits. *)
Lemma toString_four_digits (n : Z) :
  1000 <= n <= 9999 -> toString n = four_digits n.
Proof.
  intros H. apply String.eqb_eq.
  apply (forall_between_spec
           (fun z => String.eqb (toString z) (four_digits z)) 1000 9999);
    [vm_compute; reflexivity | lia].
Qed.

(** C9: the file name is a function of the local time read from the clock:
    "story_", the four-digit year, the month (counted from 1) and the day
    as two digits each, "_", hour, minute and second as two digits each,
    ".jpg"; 25 characters in all. *)
Theorem generateFilename_format {num} (P : Platform num) :
  local_time_in_range (clock P) ->
  generateFilename P =
    "story_" ++ four_digits (getFullYear (clock P))
      ++ two_digits (getMonth (clock P) + 1) ++ two_digits (getDate (clock P))
      ++ "_" ++ two_digits (getHours (clock P))
      ++ two_digits (getMinutes (clock P)) ++ two_digits (getSeconds (clock P))
      ++ ".jpg"
  /\ String.length (generateFilename P) = 25%nat.
Proof.
  intros (Hy & Hmo & Hd & Hh & Hmi & Hs).
  assert (E : generateFilename P =
    "story_" ++ four_digits (getFullYear (clock P))
      ++ two_digits (getMonth (clock P) + 1) ++ two_digits (getDate (clock P))
      ++ "_" ++ two_digits (getHours (clock P))
      ++ two_digits (getMinutes (clock P)) ++ two_digits (getSeconds (clock P))
      ++ ".jpg").
  { unfold generateFilename.
    rewrite (toString_four_digits _ Hy).
    rewrite !pad_two_digits by lia.
    reflexivity. }
  split; [exact E |]. rewrite E. reflexivity.
Qed.

Lemma generateFilename_format_witness :
  local_time_in_range Samples.march_5th_2024
  /\ generateFilename (Samples.browser float 4000 2000 true) =
     "story_20240305_090702.jpg".
Proof.
  assert (R : local_time_in_range Samples.march_5th_2024).
  { unfold local_time_in_range. simpl. repeat split; discriminate. }
  split; [exact R |].
  exact (proj1 (generateFilename_format (Samples.browser float 4000 2000 true) R)).
Defined.

(** ** Geometry, in any arithmetic *)

Section GeometryRuns.

Context {num : Type} {NUM : JSNumber num}.
Variable P : Platform num.

(** What the crop compositor draws, given a 2D context: one unfiltered
    draw of the selected source rectangle onto the whole canvas. *)
Lemma crop_fill_run (b : ImageBitmap) log :
  context2d_available P = true ->
  exists call,
    CropFill.convertToStorySize P b log =
      (inr {| canvas_width := 1080; canvas_height := 1920;
              canvas_drawn := [call] |},
       (log ++ [EvCreateCanvas])%list)
    /\ dc_filter call = "none" /\ dc_image call = b
    /\ src_rect call =
         (let w := of_Z (width b) in
          let h := of_Z (height b) in
          let outputAspect := div (of_Z 1080) (of_Z 1920) in
          if gtb (div w h) outputAspect
          then (div (sub w (mul h outputAspect)) (of_Z 2), of_Z 0,
                mul h outputAspect, h)
          else (of_Z 0, div (sub h (div w outputAspect)) (of_Z 2),
                w, div w outputAspect))
    /\ (dc_dx call, dc_dy call, dc_dw call, dc_dh call) =
         (of_Z 0, of_Z 0, of_Z 1080, of_Z 1920).
Proof.
  intros Hctx. unfold_eff. rewrite Hctx. cbv zeta.
  unfold OUTPUT_WIDTH, OUTPUT_HEIGHT.
  destruct (gtb (div (of_Z (width b)) (of_Z (height b)))
              (div (of_Z 1080) (of_Z 1920)));
    eexists; repeat split.
Qed.

(** What the blur-pad compositor draws, given a 2D context: first the
    blurred background, then the unfiltered foreground. *)
Lemma blur_pad_run (b : ImageBitmap) log :
  context2d_available P = true ->
  exists bg fg,
    BlurPad.convertToStorySize P b log =
      (inr {| canvas_width := 1080; canvas_height := 1920;
              canvas_drawn := [bg; fg] |},
       (log ++ [EvCreateCanvas])%list)
    /\ dc_filter bg = "blur(30px)" /\ dc_image bg = b
    /\ src_rect bg =
         (let w := of_Z (width b) in
          let h := of_Z (height b) in
          let outputAspect := div (of_Z 1080) (of_Z 1920) in
          if gtb (div w h) outputAspect
          then (div (sub w (mul h outputAspect)) (of_Z 2), of_Z 0,
                mul h outputAspect, h)
          else (of_Z 0, div (sub h (div w outputAspect)) (of_Z 2),
                w, div w outputAspect))
    /\ (dc_dx bg, dc_dy bg, dc_dw bg, dc_dh bg) =
         (opp (of_Z 30), opp (of_Z 30),
          add (of_Z 1080) (mul (of_Z 30) (of_Z 2)),
          add (of_Z 1920) (mul (of_Z 30) (of_Z 2)))
    /\ dc_filter fg = "none" /\ dc_image fg = b
    /\ src_rect fg = (of_Z 0, of_Z 0, of_Z (width b), of_Z (height b))
    /\ (dc_dx fg, dc_dy fg, dc_dw fg, dc_dh fg) =
         (let inputAspect := div (of_Z (width b)) (of_Z (height b)) in
          let outputAspect := div (of_Z 1080) (of_Z 1920) in
          let '(fw, fh) :=
            if gtb inputAspect outputAspect
            then (of_Z 1080, div (of_Z 1080) inputAspect)
            else (mul (of_Z 1920) inputAspect, of_Z 1920) in
          (div (sub (of_Z 1080) fw) (of_Z 2),
           div (sub (of_Z 1920) fh) (of_Z 2), fw, fh)).
Proof.
  intros Hctx. unfold_eff. rewrite Hctx. cbv zeta.
  unfold OUTPUT_WIDTH, OUTPUT_HEIGHT, BLUR_AMOUNT.
  destruct (gtb (div (of_Z (width b)) (of_Z (height b)))
              (div (of_Z 1080) (of_Z 1920)));
    do 2 eexists; repeat split.
Qed.

End GeometryRuns.

(** C4: for the same bitmap, the source rectangle of the blur-pad
    background draw is the source rectangle of the crop draw, whichever
    arithmetic evaluates the formulas (binary64 included) and whatever the
    dimensions are. *)
Theorem background_crop_matches_crop_fill {num} {NUM : JSNumber num}
  (P1 P2 : Platform num) (b : ImageBitmap) (log1 log2 : list (Event num)) :
  context2d_available P1 = true ->
  context2d_available P2 = true ->
  exists c1 l1 c2 l2 crop bg fg,
    CropFill.convertToStorySize P1 b log1 = (inr c1, l1)
    /\ BlurPad.convertToStorySize P2 b log2 = (inr c2, l2)
    /\ canvas_drawn c1 = [crop]
    /\ canvas_drawn c2 = [bg; fg]
    /\ src_rect bg = src_rect crop.
Proof.
  intros H1 H2.
  destruct (crop_fill_run P1 b log1 H1) as (crop & R1 & _ & _ & S1 & _).
  destruct (blur_pad_run P2 b log2 H2) as (bg & fg & R2 & _ & _ & S2 & _).
  do 4 eexists. exists crop, bg, fg.
  split; [exact R1 |]. split; [exact R2 |].
  split; [reflexivity |]. split; [reflexivity |].
  rewrite S1, S2. reflexivity.
Qed.

Lemma background_crop_matches_crop_fill_witness :
  exists crop bg fg,
    fst (CropFill.convertToStorySize (Samples.browser float 4000 2000 true)
           (Samples.bitmap 4000 2000) []) =
      inr {| canvas_width := 1080; canvas_height := 1920;
             canvas_drawn := [crop] |}
    /\ fst (BlurPad.convertToStorySize (Samples.browser float 4000 2000 true)
           (Samples.bitmap 4000 2000) []) =
      inr {| canvas_width := 1080; canvas_height := 1920;
             canvas_drawn := [bg; fg] |}
    /\ src_rect bg = src_rect crop
    /\ src_rect crop = (1437.5, 0, 1125, 2000)%float.
Proof.
  destruct (background_crop_matches_crop_fill
              (Samples.browser float 4000 2000 true)
              (Samples.browser float 4000 2000 true)
              (Samples.bitmap 4000 2000) [] [] eq_refl eq_refl)
    as (c1 & l1 & c2 & l2 & crop & bg & fg & R1 & R2 & D1 & D2 & E).
  exists crop, bg, fg.
  vm_compute in R1. vm_compute in R2.
  injection R1 as <- _. injection R2 as <- _.
  simpl in D1, D2. injection D1 as <-. injection D2 as <- <-.
  repeat split.
Defined.

(** C10: the dimension guard returns no error exactly when both dimensions
    are at most 4096; 4096 itself passes; nothing bounds the dimensions
    from below, so zero and negative dimensions pass too.  A bitmap whose
    dimensions pass, whatever their sign (100x0, 0x0, -3x5), is handed to
    the compositor, which (given a 2D context) evaluates
    inputAspect = width / height on those dimensions and issues the draw
    calls computed from it; the drawn canvas then goes to the encoder; in
    both variants and in any arithmetic. *)
Theorem dimension_guard_has_no_lower_bound :
  (forall w h : Z, validateDimensions w h = None <-> w <= 4096 /\ h <= 4096)
  /\ validateDimensions 4096 4096 = None
  /\ (forall w h : Z, w <= 0 -> h <= 0 -> validateDimensions w h = None)
  /\ (forall num (NUM : JSNumber num) (P : Platform num) f b,
        validateFile f = None ->
        createImageBitmap P f = inr b ->
        width b <= 4096 -> height b <= 4096 ->
        context2d_available P = true ->
        let sourceWidth := of_Z (width b) in
        let sourceHeight := of_Z (height b) in
        let outputAspect := div (of_Z 1080) (of_Z 1920) in
        let inputAspect := div sourceWidth sourceHeight in
        let cover :=
          if gtb inputAspect outputAspect
          then (div (sub sourceWidth (mul sourceHeight outputAspect)) (of_Z 2),
                of_Z 0, mul sourceHeight outputAspect, sourceHeight)
          else (of_Z 0,
                div (sub sourceHeight (div sourceWidth outputAspect)) (of_Z 2),
                sourceWidth, div sourceWidth outputAspect) in
        let contain :=
          if gtb inputAspect outputAspect
          then (of_Z 1080, div (of_Z 1080) inputAspect)
          else (mul (of_Z 1920) inputAspect, of_Z 1920) in
        (exists c call,
           snd (CropFill.convertImage P (Some f) []) =
             [EvCreateImageBitmap f; EvCreateCanvas; EvClose b; EvToBlob c]
           /\ canvas_drawn c = [call]
           /\ src_rect call = cover)
        /\ (exists c bg fg,
           snd (BlurPad.convertImage P (Some f) []) =
             [EvCreateImageBitmap f; EvCreateCanvas; EvClose b; EvToBlob c]
           /\ canvas_drawn c = [bg; fg]
           /\ src_rect bg = cover
           /\ src_rect fg = (of_Z 0, of_Z 0, sourceWidth, sourceHeight)
           /\ (dc_dw fg, dc_dh fg) = contain)).
Proof.
  assert (G : forall w h : Z,
             validateDimensions w h = None <-> w <= 4096 /\ h <= 4096).
  { intros w h. rewrite validateDimensions_spec.
    destruct (Z_le_dec w 4096), (Z_le_dec h 4096);
      split; try discriminate; try reflexivity; lia. }
  split; [exact G |]. split; [reflexivity |].
  split; [intros w h Hw Hh; apply G; lia |].
  intros num NUM P f b Hf Hd Hw Hh Hctx.
  assert (He : validateDimensions (width b) (height b) = None)
    by (apply G; lia).
  cbv zeta.
  destruct (crop_fill_run P b [EvCreateImageBitmap f] Hctx)
    as (call & R1 & _ & _ & S1 & _).
  destruct (blur_pad_run P b [EvCreateImageBitmap f] Hctx)
    as (bg & fg & R2 & _ & _ & S2 & _ & _ & _ & Sfg & Dfg).
  unfold CropFill.convertImage, BlurPad.convertImage.
  rewrite (convertImage_compositor_returns P _ f b _ _ Hf Hd He R1).
  rewrite (convertImage_compositor_returns P _ f b _ _ Hf Hd He R2).
  split.
  - do 2 eexists. split; [reflexivity |]. split; [reflexivity | exact S1].
  - do 3 eexists. split; [reflexivity |]. split; [reflexivity |].
    split; [exact S2 |]. split; [exact Sfg |].
    cbv zeta in Dfg.
    destruct (gtb (div (of_Z (width b)) (of_Z (height b)))
                (div (of_Z 1080) (of_Z 1920)));
      inversion Dfg; reflexivity.
Qed.

Lemma dimension_guard_has_no_lower_bound_witness :
  validateDimensions 100 0 = None
  /\ PrimFloat.div (of_Z 100) (of_Z 0) = infinity
  /\ exists c call,
       snd (CropFill.convertImage (Samples.browser float 100 0 true)
              (Some Samples.photo) []) =
         [EvCreateImageBitmap Samples.photo; EvCreateCanvas;
          EvClose (Samples.bitmap 100 0); EvToBlob c]
       /\ canvas_drawn c = [call]
       /\ src_rect call = (50, 0, 0, 0)%float.
Proof.
  split; [| split; [reflexivity |]].
  - apply (proj1 dimension_guard_has_no_lower_bound 100 0). split; discriminate.
  - destruct (proj2 (proj2 (proj2 dimension_guard_has_no_lower_bound))
                float binary64 (Samples.browser float 100 0 true)
                Samples.photo (Samples.bitmap 100 0) eq_refl eq_refl)
      as [(c & call & L & Dr & S) _]; try discriminate; [reflexivity |].
    exists c, call. split; [exact L |]. split; [exact Dr |].
    rewrite S. reflexivity.
Defined.

(** ** Geometry, in binary64 *)

(** Settle a boolean goal about an integer [v] known to lie in [lo..hi] by
    evaluating it on every integer of the range. *)
Ltac by_range_check v lo hi H :=
  match goal with
  | |- ?lhs = true =>
      let abstracted := eval pattern v in lhs in
      match abstracted with
      | ?f _ => apply (forall_between_spec f lo hi);
                [vm_compute; reflexivity | exact H]
      end
  end.

(** The crop on a 4000x2000 source, as the browser computes it. *)
Example crop_fill_4000x2000_binary64 :
  CropFill.convertToStorySize (Samples.browser float 4000 2000 true)
    (Samples.bitmap 4000 2000) [] =
  (inr {| canvas_width := 1080; canvas_height := 1920;
          canvas_drawn :=
            [{| dc_filter := "none"; dc_image := Samples.bitmap 4000 2000;
                dc_sx := (1437.5)%float; dc_sy := (0)%float; dc_sw := (1125)%float; dc_sh := (2000)%float;
                dc_dx := (0)%float; dc_dy := (0)%float; dc_dw := (1080)%float; dc_dh := (1920)%float |}] |},
   [EvCreateCanvas]).
Proof. reflexivity. Qed.

(** The two layers on a 4000x2000 source, as the browser computes them. *)
Example blur_pad_4000x2000_binary64 :
  BlurPad.convertToStorySize (Samples.browser float 4000 2000 true)
    (Samples.bitmap 4000 2000) [] =
  (inr {| canvas_width := 1080; canvas_height := 1920;
          canvas_drawn :=
            [{| dc_filter := "blur(30px)"; dc_image := Samples.bitmap 4000 2000;
                dc_sx := (1437.5)%float; dc_sy := (0)%float; dc_sw := (1125)%float; dc_sh := (2000)%float;
                dc_dx := (-30)%float; dc_dy := (-30)%float; dc_dw := (1140)%float; dc_dh := (1980)%float |};
             {| dc_filter := "none"; dc_image := Samples.bitmap 4000 2000;
                dc_sx := (0)%float; dc_sy := (0)%float; dc_sw := (4000)%float; dc_sh := (2000)%float;
                dc_dx := (0)%float; dc_dy := (690)%float; dc_dw := (1080)%float; dc_dh := (540)%float |}] |},
   [EvCreateCanvas]).
Proof. reflexivity. Qed.

(** A bitmap reported as 0x0 passes the guard; the input aspect is then
    NaN, the comparison is false, the crop selects an empty source rectangle
    and the blur-pad foreground gets a NaN width. *)
Example degenerate_0x0_binary64 :
  validateDimensions 0 0 = None
  /\ PrimFloat.is_nan (div (of_Z 0) (of_Z 0)) = true
  /\ (exists call,
        fst (CropFill.convertToStorySize (Samples.browser float 0 0 true)
               (Samples.bitmap 0 0) []) =
          inr {| canvas_width := 1080; canvas_height := 1920;
                 canvas_drawn := [call] |}
        /\ src_rect call = (0, 0, 0, 0)%float)
  /\ (exists bg fg,
        fst (BlurPad.convertToStorySize (Samples.browser float 0 0 true)
               (Samples.bitmap 0 0) []) =
          inr {| canvas_width := 1080; canvas_height := 1920;
                 canvas_drawn := [bg; fg] |}
        /\ PrimFloat.is_nan (dc_dw fg) = true).
Proof.
  split; [reflexivity |]. split; [reflexivity |]. split.
  - eexists. split; reflexivity.
  - do 2 eexists. split; reflexivity.
Qed.

(** X16: in binary64, for every source up to 65536 pixels a side, the selected
    rectangle's width over its height is 0.5625 with no rounding error left:
    the two branches depend on one dimension each, and each is checked on
    all its values. *)
Lemma crop_fill_aspect_binary64 (P : Platform float) (b : ImageBitmap)
  (log : list (Event float)) :
  1 <= width b <= 65536 -> 1 <= height b <= 65536 ->
  context2d_available P = true ->
  exists call,
    CropFill.convertToStorySize P b log =
      (inr {| canvas_width := 1080; canvas_height := 1920;
              canvas_drawn := [call] |},
       (log ++ [EvCreateCanvas])%list)
    /\ PrimFloat.eqb (div (dc_sw call) (dc_sh call)) 0.5625%float = true.
Proof.
  intros Hw Hh Hctx.
  destruct (crop_fill_run P b log Hctx) as (call & R & _ & _ & S & _).
  exists call. split; [exact R |].
  destruct call as [fl im sx sy sw sh dx dy dw dh].
  unfold src_rect in S. cbv zeta in S. simpl dc_sw. simpl dc_sh.
  destruct (gtb (div (of_Z (width b)) (of_Z (height b)))
              (div (of_Z 1080) (of_Z 1920)));
    inversion S; subst sx sy sw sh; clear S.
  - by_range_check (height b) 1 65536 Hh.
  - by_range_check (width b) 1 65536 Hw.
Qed.

(** X17: in binary64, every 9k x 16k source up to 65536 pixels high is selected
    whole. *)
Lemma exact_aspect_binary64 (P : Platform float) (b : ImageBitmap)
  (log : list (Event float)) (k : Z) :
  1 <= k <= 4096 -> width b = 9 * k -> height b = 16 * k ->
  context2d_available P = true ->
  exists call,
    CropFill.convertToStorySize P b log =
      (inr {| canvas_width := 1080; canvas_height := 1920;
              canvas_drawn := [call] |},
       (log ++ [EvCreateCanvas])%list)
    /\ (PrimFloat.eqb (dc_sx call) 0%float && PrimFloat.eqb (dc_sy call) 0%float
        && PrimFloat.eqb (dc_sw call) (of_Z (width b))
        && PrimFloat.eqb (dc_sh call) (of_Z (height b)))%bool = true.
Proof.
  intros Hk Ew Eh Hctx.
  destruct (crop_fill_run P b log Hctx) as (call & R & _ & _ & S & _).
  exists call. split; [exact R |].
  destruct call as [fl im sx sy sw sh dx dy dw dh].
  unfold src_rect in S. cbv zeta in S.
  cbn [dc_sx dc_sy dc_sw dc_sh] in S |- *.
  rewrite Ew, Eh in S |- *.
  change ((fun '(x, y, w, h) =>
             (PrimFloat.eqb x 0%float && PrimFloat.eqb y 0%float
              && PrimFloat.eqb w (of_Z (9 * k))
              && PrimFloat.eqb h (of_Z (16 * k)))%bool) (sx, sy, sw, sh)
          = true).
  rewrite S. by_range_check k 1 4096 Hk.
Qed.

(** Settle a boolean goal about two integers known to lie in [lo..hi] by
    evaluating it on every pair of the range. *)
Ltac by_square_check v1 v2 lo hi H1 H2 :=
  match goal with
  | |- ?lhs = true =>
      let abstracted := eval pattern v1, v2 in lhs in
      match abstracted with
      | ?f _ _ =>
          let Hall := fresh "Hall" in
          assert (Hall : forall_between
                           (fun x => forall_between (f x) lo hi) lo hi = true)
            by (vm_compute; reflexivity);
          exact (forall_between_spec _ lo hi
                   (forall_between_spec _ lo hi Hall v1 H1) v2 H2)
      end
  end.

(** X18: in binary64, for every source up to 512 pixels a side, the foreground
    rectangle as computed lies within the canvas and spans its width or its
    height. *)
Lemma blur_pad_foreground_binary64 (P : Platform float) (b : ImageBitmap)
  (log : list (Event float)) :
  1 <= width b <= 512 -> 1 <= height b <= 512 ->
  context2d_available P = true ->
  exists bg fg,
    BlurPad.convertToStorySize P b log =
      (inr {| canvas_width := 1080; canvas_height := 1920;
              canvas_drawn := [bg; fg] |},
       (log ++ [EvCreateCanvas])%list)
    /\ (PrimFloat.leb 0%float (dc_dx fg) && PrimFloat.leb 0%float (dc_dy fg)
        && PrimFloat.leb (add (dc_dx fg) (dc_dw fg)) 1080%float
        && PrimFloat.leb (add (dc_dy fg) (dc_dh fg)) 1920%float
        && (PrimFloat.eqb (dc_dw fg) 1080%float
            || PrimFloat.eqb (dc_dh fg) 1920%float))%bool = true.
Proof.
  intros Hw Hh Hctx.
  destruct (blur_pad_run P b log Hctx)
    as (bg & fg & R & _ & _ & _ & _ & _ & _ & _ & D).
  exists bg, fg. split; [exact R |].
  destruct fg as [fl im sx sy sw sh dx dy dw dh].
  cbn [dc_dx dc_dy dc_dw dc_dh] in D |- *.
  change ((fun '(x, y, w, h) =>
             (PrimFloat.leb 0%float x && PrimFloat.leb 0%float y
              && PrimFloat.leb (add x w) 1080%float
              && PrimFloat.leb (add y h) 1920%float
              && (PrimFloat.eqb w 1080%float || PrimFloat.eqb h 1920%float))%bool)
            (dx, dy, dw, dh) = true).
  rewrite D.
  by_square_check (width b) (height b) 1 512 Hw Hh.
Qed.

(** ** The geometry of both variants, in binary64, for every size the
       dimension guard admits *)

Lemma integers_from_spec (n : nat) :
  forall lo z, lo <= z < lo + Z.of_nat n -> In z (integers_from lo n).
Proof.
  induction n as [| k IH]; intros lo z Hz.
  - simpl in Hz. lia.
  - simpl. destruct (Z.eq_dec z lo) as [-> | Hne]; [left; reflexivity |].
    right. apply IH. lia.
Qed.

Lemma dimension_table_spec (lo hi z : Z) :
  lo <= z <= hi -> In (z, float_of_Z z) (dimension_table lo hi).
Proof.
  intros Hz. unfold dimension_table.
  apply (in_map (fun z => (z, float_of_Z z))).
  apply integers_from_spec. lia.
Qed.

Lemma forall_pairs_spec (f : Z -> float -> Z -> float -> bool) (lo hi : Z) :
  forall_pairs f (dimension_table lo hi) = true ->
  forall w h, lo <= w <= hi -> lo <= h <= hi ->
              f w (float_of_Z w) h (float_of_Z h) = true.
Proof.
  unfold forall_pairs. intros H w h Hw Hh.
  rewrite forallb_forall in H.
  specialize (H _ (dimension_table_spec lo hi w Hw)).
  rewrite forallb_forall in H.
  exact (H _ (dimension_table_spec lo hi h Hh)).
Qed.

(** Write the integer constants of the source as the doubles they are. *)
Ltac literal_constants :=
  change (@of_Z float binary64 0) with 0%float;
  change (@of_Z float binary64 2) with 2%float;
  change (@of_Z float binary64 1080) with 1080%float;
  change (@of_Z float binary64 1920) with 1920%float;
  change (@div float binary64 1080%float 1920%float) with 0.5625%float.

(** Settle a boolean goal about the width and height of [b], both known to
    lie in [lo..hi], by evaluating it on every pair of the table. *)
Ltac by_table_check b lo hi Hw Hh :=
  literal_constants;
  let fw := fresh "fw" in
  let fh := fresh "fh" in
  set (fw := @of_Z float binary64 (width b));
  set (fh := @of_Z float binary64 (height b));
  match goal with
  | |- ?lhs = true =>
      let abstracted := eval pattern (width b), fw, (height b), fh in lhs in
      match abstracted with
      | ?f _ _ _ _ =>
          exact (forall_pairs_spec f lo hi
                   ltac:(vm_compute; reflexivity) (width b) (height b) Hw Hh)
      end
  end.

(** The same, in a hypothesis. *)
Ltac literal_constants_in H :=
  change (@of_Z float binary64 0) with 0%float in H;
  change (@of_Z float binary64 2) with 2%float in H;
  change (@of_Z float binary64 1080) with 1080%float in H;
  change (@of_Z float binary64 1920) with 1920%float in H;
  change (@div float binary64 1080%float 1920%float) with 0.5625%float in H;
  change (@gtb float binary64) with (fun a b => PrimFloat.ltb b a) in H;
  change (@div float binary64) with PrimFloat.div in H;
  change (@mul float binary64) with PrimFloat.mul in H;
  change (@sub float binary64) with PrimFloat.sub in H;
  change (@add float binary64) with PrimFloat.add in H;
  cbv beta in H.

(** C1: in binary64, the arithmetic the code runs, and given a 2D context,
    the crop compositor returns a 1080x1920 canvas with one draw call onto
    the whole canvas whose source rectangle follows the cover rule: when
    inputAspect > 0.5625, full height, width h * 0.5625, x = (w - width)/2,
    y = 0; otherwise full width, height w / 0.5625, x = 0,
    y = (h - height)/2 (all operations rounded as the code rounds them).
    For every source from 1 to 65536 pixels a side (the dimension guard
    admits 1 to 4096) the rectangle's width over its height is 0.5625, with
    no rounding error left. *)
Theorem crop_fill_cover_rule (P : Platform float) (b : ImageBitmap)
  (log : list (Event float)) :
  context2d_available P = true ->
  let w := of_Z (width b) in
  let h := of_Z (height b) in
  exists call,
    CropFill.convertToStorySize P b log =
      (inr {| canvas_width := 1080; canvas_height := 1920;
              canvas_drawn := [call] |},
       (log ++ [EvCreateCanvas])%list)
    /\ dc_image call = b
    /\ ((0.5625 <? w / h)%float = true ->
          dc_sh call = h /\ dc_sw call = (h * 0.5625)%float
          /\ dc_sx call = ((w - dc_sw call) / 2)%float
          /\ dc_sy call = 0%float)
    /\ ((0.5625 <? w / h)%float = false ->
          dc_sw call = w /\ dc_sh call = (w / 0.5625)%float
          /\ dc_sx call = 0%float
          /\ dc_sy call = ((h - dc_sh call) / 2)%float)
    /\ (dc_dx call, dc_dy call, dc_dw call, dc_dh call) =
         (0, 0, 1080, 1920)%float
    /\ (1 <= width b <= 65536 -> 1 <= height b <= 65536 ->
        (dc_sw call / dc_sh call =? 0.5625)%float = true).
Proof.
  intros Hctx w h.
  destruct (crop_fill_run P b log Hctx) as (call & R & _ & Hb & S & D).
  exists call. split; [exact R |]. split; [exact Hb |].
  destruct call as [fl im sx sy sw sh dx dy dw dh].
  unfold src_rect in S. cbv zeta in S.
  cbn [dc_sx dc_sy dc_sw dc_sh dc_dx dc_dy dc_dw dc_dh] in S, D |- *.
  literal_constants_in S. fold w h in S.
  destruct (0.5625 <? w / h)%float eqn:G;
    inversion S; subst sx sy sw sh; clear S.
  - split; [intros _; repeat split |].
    split; [discriminate |]. split; [exact D |].
    intros _ Hh. subst h. by_range_check (height b) 1 65536 Hh.
  - split; [discriminate |].
    split; [intros _; repeat split |]. split; [exact D |].
    intros Hw _. subst w. by_range_check (width b) 1 65536 Hw.
Qed.

Lemma crop_fill_cover_rule_witness :
  exists call,
    CropFill.convertToStorySize (Samples.browser float 1000 3000 true)
      (Samples.bitmap 1000 3000) [] =
      (inr {| canvas_width := 1080; canvas_height := 1920;
              canvas_drawn := [call] |}, [EvCreateCanvas])
    /\ src_rect call =
         (0, 611.11111111111109, 1000, 1777.7777777777778)%float
    /\ (dc_sw call / dc_sh call =? 0.5625)%float = true.
Proof.
  destruct (crop_fill_cover_rule (Samples.browser float 1000 3000 true)
              (Samples.bitmap 1000 3000) [] eq_refl)
    as (call & R & _ & _ & Htall & _ & A).
  exists call. split; [exact R |]. split.
  - destruct (Htall eq_refl) as (Hsw & Hsh & Hsx & Hsy).
    unfold src_rect. rewrite Hsy, Hsx, Hsh, Hsw. reflexivity.
  - apply A; split; discriminate.
Defined.

(** C8: in binary64, for every source whose dimensions are exactly in
    the ratio 1080 : 1920 (1920 * w = 1080 * h, up to 65536 pixels high),
    the input aspect equals the output aspect and the crop compositor's
    source rectangle is the whole source: x = 0, y = 0, the source's width
    and the source's height; nothing is cropped. *)
Theorem exact_aspect_source_is_not_cropped (P : Platform float)
  (b : ImageBitmap) (log : list (Event float)) :
  1 <= height b <= 65536 ->
  1920 * width b = 1080 * height b ->
  context2d_available P = true ->
  exists call,
    CropFill.convertToStorySize P b log =
      (inr {| canvas_width := 1080; canvas_height := 1920;
              canvas_drawn := [call] |},
       (log ++ [EvCreateCanvas])%list)
    /\ (of_Z (width b) / of_Z (height b) =? 0.5625)%float = true
    /\ (dc_sx call =? 0)%float = true
    /\ (dc_sy call =? 0)%float = true
    /\ (dc_sw call =? of_Z (width b))%float = true
    /\ (dc_sh call =? of_Z (height b))%float = true.
Proof.
  intros Hh E Hctx.
  destruct (crop_fill_run P b log Hctx) as (call & R & _ & _ & S & _).
  exists call. split; [exact R |].
  destruct call as [fl im sx sy sw sh dx dy dw dh].
  unfold src_rect in S. cbv zeta in S.
  cbn [dc_sx dc_sy dc_sw dc_sh] in S |- *.
  assert (Hd : (16 | height b)).
  { apply (Z.gauss 16 9); [exists (width b); lia | reflexivity]. }
  destruct Hd as [k Hd].
  assert (Eh : height b = 16 * k) by lia.
  assert (Ew : width b = 9 * k) by lia.
  assert (Hk : 1 <= k <= 4096) by lia.
  rewrite Ew, Eh in S |- *.
  enough (K : ((of_Z (9 * k) / of_Z (16 * k) =? 0.5625)
               && (sx =? 0) && (sy =? 0)
               && (sw =? of_Z (9 * k)) && (sh =? of_Z (16 * k)))%float = true).
  { rewrite !andb_true_iff in K. tauto. }
  change ((fun '(x, y, w, h) =>
             ((of_Z (9 * k) / of_Z (16 * k) =? 0.5625)
              && (x =? 0) && (y =? 0)
              && (w =? of_Z (9 * k)) && (h =? of_Z (16 * k)))%float)
            (sx, sy, sw, sh) = true).
  rewrite S. by_range_check k 1 4096 Hk.
Qed.

Lemma exact_aspect_source_is_not_cropped_witness :
  exists call,
    CropFill.convertToStorySize (Samples.browser float 1080 1920 true)
      (Samples.bitmap 1080 1920) [] =
      (inr {| canvas_width := 1080; canvas_height := 1920;
              canvas_drawn := [call] |}, [EvCreateCanvas])
    /\ (dc_sx call =? 0)%float = true
    /\ (dc_sy call =? 0)%float = true
    /\ (dc_sw call =? 1080)%float = true
    /\ (dc_sh call =? 1920)%float = true.
Proof.
  assert (Hh : 1 <= height (Samples.bitmap 1080 1920) <= 65536)
    by (split; discriminate).
  destruct (exact_aspect_source_is_not_cropped
              (Samples.browser float 1080 1920 true)
              (Samples.bitmap 1080 1920) [] Hh eq_refl eq_refl)
    as (call & R & _ & Hx & Hy & Hw & Hhh).
  exists call. repeat split; assumption.
Defined.

(** C2: in binary64, the arithmetic the code runs, and given a 2D context,
    the blur-pad compositor returns a 1080x1920 canvas with two draw calls,
    in this order: the blurred background, drawn at (-30,-30) with size
    1140x1980, so reaching 30 beyond every canvas edge; then the unfiltered
    whole source, fitted by the contain rule (width 1080 and height
    1080/inputAspect when inputAspect > 0.5625, otherwise height 1920 and
    width 1920*inputAspect) and centred at ((1080-w)/2, (1920-h)/2).  For
    every source from 1 to 4096 pixels a side, which is all the dimension
    guard admits, the foreground rectangle lies within [0,1080]x[0,1920]
    and spans the canvas width or height. *)
Theorem blur_pad_layers (P : Platform float) (b : ImageBitmap)
  (log : list (Event float)) :
  context2d_available P = true ->
  let w := of_Z (width b) in
  let h := of_Z (height b) in
  exists bg fg,
    BlurPad.convertToStorySize P b log =
      (inr {| canvas_width := 1080; canvas_height := 1920;
              canvas_drawn := [bg; fg] |},
       (log ++ [EvCreateCanvas])%list)
    /\ dc_filter bg = "blur(30px)"
    /\ (dc_dx bg, dc_dy bg, dc_dw bg, dc_dh bg) =
         (-30, -30, 1080 + 60, 1920 + 60)%float
    /\ ((dc_dx bg + dc_dw bg)%float = (1080 + 30)%float
        /\ (dc_dy bg + dc_dh bg)%float = (1920 + 30)%float)
    /\ dc_filter fg = "none"
    /\ src_rect fg = (0%float, 0%float, w, h)
    /\ ((0.5625 <? w / h)%float = true ->
          dc_dw fg = 1080%float /\ dc_dh fg = (1080 / (w / h))%float)
    /\ ((0.5625 <? w / h)%float = false ->
          dc_dh fg = 1920%float /\ dc_dw fg = (1920 * (w / h))%float)
    /\ (dc_dx fg = ((1080 - dc_dw fg) / 2)%float
        /\ dc_dy fg = ((1920 - dc_dh fg) / 2)%float)
    /\ (1 <= width b <= 4096 -> 1 <= height b <= 4096 ->
        (0 <=? dc_dx fg)%float = true
        /\ (0 <=? dc_dy fg)%float = true
        /\ (dc_dx fg + dc_dw fg <=? 1080)%float = true
        /\ (dc_dy fg + dc_dh fg <=? 1920)%float = true
        /\ ((dc_dx fg =? 0) && (dc_dw fg =? 1080)
            || (dc_dy fg =? 0) && (dc_dh fg =? 1920))%float = true).
Proof.
  intros Hctx w h.
  destruct (blur_pad_run P b log Hctx)
    as (bg & fg & R & Fbg & _ & _ & Dbg & Ffg & _ & Sfg & Dfg).
  exists bg, fg. split; [exact R |]. split; [exact Fbg |].
  destruct bg as [bfl bim bsx bsy bsw bsh bdx bdy bdw bdh].
  destruct fg as [ffl fim fsx fsy fsw fsh fdx fdy fdw fdh].
  cbn [dc_filter dc_dx dc_dy dc_dw dc_dh] in Dbg, Ffg, Dfg |- *.
  inversion Dbg; subst bdx bdy bdw bdh; clear Dbg.
  split; [reflexivity |]. split; [split; reflexivity |].
  split; [exact Ffg |]. split; [exact Sfg |].
  cbv zeta in Dfg. literal_constants_in Dfg. fold w h in Dfg.
  destruct (0.5625 <? w / h)%float eqn:G;
    inversion Dfg; subst fdx fdy fdw fdh; clear Dfg.
  - split; [intros _; split; reflexivity |].
    split; [discriminate |]. split; [split; reflexivity |].
    intros Hw Hh.
    enough (K : ((0.5625 <? w / h)
                 && (0 <=? (1080 - 1080) / 2)
                 && (0 <=? (1920 - 1080 / (w / h)) / 2)
                 && ((1080 - 1080) / 2 + 1080 <=? 1080)
                 && ((1920 - 1080 / (w / h)) / 2 + 1080 / (w / h) <=? 1920)
                 || negb (0.5625 <? w / h))%float = true).
    { rewrite G in K. simpl in K. rewrite orb_false_r in K.
      rewrite !andb_true_iff in K. repeat split; try apply K. }
    subst w h. by_table_check b 1 4096 Hw Hh.
  - split; [discriminate |].
    split; [intros _; split; reflexivity |]. split; [split; reflexivity |].
    intros Hw Hh.
    enough (K : (negb (0.5625 <? w / h)
                 && (0 <=? (1080 - 1920 * (w / h)) / 2)
                 && (0 <=? (1920 - 1920) / 2)
                 && ((1080 - 1920 * (w / h)) / 2 + 1920 * (w / h) <=? 1080)
                 && ((1920 - 1920) / 2 + 1920 <=? 1920)
                 || (0.5625 <? w / h))%float = true).
    { rewrite G in K. simpl in K. rewrite orb_false_r in K.
      rewrite !andb_true_iff in K. repeat split; try apply K.
      apply orb_true_iff. right. reflexivity. }
    subst w h. by_table_check b 1 4096 Hw Hh.
Qed.

Lemma blur_pad_layers_witness :
  exists bg fg,
    BlurPad.convertToStorySize (Samples.browser float 3000 2019 true)
      (Samples.bitmap 3000 2019) [] =
      (inr {| canvas_width := 1080; canvas_height := 1920;
              canvas_drawn := [bg; fg] |}, [EvCreateCanvas])
    /\ dc_filter bg = "blur(30px)" /\ dc_filter fg = "none"
    /\ (dc_dx fg, dc_dy fg, dc_dw fg, dc_dh fg) =
         (0, 596.57999999999993, 1080, 726.84000000000003)%float
    /\ (dc_dy fg + dc_dh fg <=? 1920)%float = true.
Proof.
  destruct (blur_pad_layers (Samples.browser float 3000 2019 true)
              (Samples.bitmap 3000 2019) [] eq_refl)
    as (bg & fg & R & Fbg & _ & _ & Ffg & _ & Hwide & _ & (Hx & Hy) & In).
  exists bg, fg. split; [exact R |]. split; [exact Fbg |]. split; [exact Ffg |].
  split.
  - destruct (Hwide eq_refl) as (Hdw & Hdh).
    rewrite Hx, Hy, Hdh, Hdw. reflexivity.
  - apply In; split; discriminate.
Defined.

(** ** End to end *)

(** A valid 4000x2000 JPEG goes through every stage, in both variants: the
    bitmap is decoded, composited, closed, and the canvas encoded. *)
Example convertImage_success :
  (exists c,
     CropFill.convertImage (Samples.browser float 4000 2000 true)
       (Some Samples.photo) [] =
     (inr (Success Samples.jpeg_blob "story_20240305_090702.jpg"),
      [EvCreateImageBitmap Samples.photo; EvCreateCanvas;
       EvClose (Samples.bitmap 4000 2000); EvToBlob c])
     /\ canvas_width c = 1080 /\ canvas_height c = 1920)
  /\ (exists c,
     BlurPad.convertImage (Samples.browser float 4000 2000 true)
       (Some Samples.photo) [] =
     (inr (Success Samples.jpeg_blob "story_20240305_090702.jpg"),
      [EvCreateImageBitmap Samples.photo; EvCreateCanvas;
       EvClose (Samples.bitmap 4000 2000); EvToBlob c])
     /\ canvas_width c = 1080 /\ canvas_height c = 1920).
Proof. split; eexists; repeat split. Qed.

(** No file at all: NO_FILE, and no platform call. *)
Example convertImage_no_file :
  CropFill.convertImage (Samples.browser float 4000 2000 true) None [] =
    (inr (Failure NO_FILE), [])
  /\ BlurPad.convertImage (Samples.browser float 4000 2000 true) None [] =
    (inr (Failure NO_FILE), []).
Proof. split; reflexivity. Qed.

(** * Further properties of the library *)

(** ** Every path through [convertImage] *)

Section Paths.

Context {num : Type} {NUM : JSNumber num}.
Variable P : Platform num.
Variable compose : ImageBitmap -> M num (Canvas num).

(** The orchestrator as a decision tree over what the platform answers. *)
Lemma convertImage_cases (file : option File) (log : list (Event num)) :
  Pipeline.convertImage P compose file log =
  match file with
  | None => (inr (Failure NO_FILE), log)
  | Some f =>
      match validateFile f with
      | Some e => (inr (Failure e), log)
      | None =>
          match createImageBitmap P f with
          | inl e =>
              (inr (Failure (DECODE_FAILED (message_of e))),
               (log ++ [EvCreateImageBitmap f])%list)
          | inr b =>
              match validateDimensions (width b) (height b) with
              | Some e =>
                  (inr (Failure e),
                   (log ++ [EvCreateImageBitmap f; EvClose b])%list)
              | None =>
                  match compose b (log ++ [EvCreateImageBitmap f])%list with
                  | (inl e, l) =>
                      (inr (Failure (CONVERSION_FAILED (message_of e))), l)
                  | (inr c, l) =>
                      (inr match toBlob P c "image/jpeg" JPEG_QUALITY with
                           | Some blob => Success blob (generateFilename P)
                           | None =>
                               Failure (CONVERSION_FAILED "Failed to create blob")
                           end,
                       (l ++ [EvClose b; EvToBlob c])%list)
                  end
              end
          end
      end
  end.
Proof.
  destruct file as [f |]; [| reflexivity].
  unfold_eff. destruct (validateFile f); [reflexivity |]. simpl.
  destruct (createImageBitmap P f) as [e | b]; [reflexivity |].
  destruct (validateDimensions (width b) (height b)).
  - now rewrite <- app_assoc.
  - destruct (compose b _) as [[e | c] l]; [reflexivity |].
    rewrite <- app_assoc. simpl.
    destruct (toBlob P c "image/jpeg" JPEG_QUALITY); reflexivity.
Qed.

End Paths.

(** Both compositors, for any log: they log one canvas creation, throw
    exactly when there is no 2D context, and otherwise return a 1080x1920
    canvas. *)
Lemma compositor_outcome {num} {NUM : JSNumber num} (P : Platform num)
  (b : ImageBitmap) (log : list (Event num)) :
  (exists r, CropFill.convertToStorySize P b log =
               (r, (log ++ [EvCreateCanvas])%list)
             /\ match r with
                | inl e => context2d_available P = false
                           /\ e = ErrorObject "Canvas context not available"
                | inr c => context2d_available P = true
                           /\ canvas_width c = 1080 /\ canvas_height c = 1920
                end)
  /\ (exists r, BlurPad.convertToStorySize P b log =
               (r, (log ++ [EvCreateCanvas])%list)
             /\ match r with
                | inl e => context2d_available P = false
                           /\ e = ErrorObject "Canvas context not available"
                | inr c => context2d_available P = true
                           /\ canvas_width c = 1080 /\ canvas_height c = 1920
                end).
Proof.
  destruct (context2d_available P) eqn:Hctx.
  - destruct (crop_fill_run P b log Hctx) as (c1 & R1 & _).
    destruct (blur_pad_run P b log Hctx) as (bg & fg & R2 & _).
    split; eexists; (split; [eassumption |]); repeat split.
  - destruct (compositors_throw_without_context P b log Hctx) as [R1 R2].
    split; eexists; (split; [eassumption |]); repeat split.
Qed.

Lemma convertImage_settles {num} {NUM : JSNumber num}
  (P : Platform num) (file : option File) (log : list (Event num)) :
  (exists r l, CropFill.convertImage P file log = (inr r, l))
  /\ (exists r l, BlurPad.convertImage P file log = (inr r, l)).
Proof.
  unfold CropFill.convertImage, BlurPad.convertImage.
  rewrite !convertImage_cases.
  destruct file as [f |]; [| split; eauto].
  destruct (validateFile f); [split; eauto |].
  destruct (createImageBitmap P f) as [e | b]; [split; eauto |].
  destruct (validateDimensions (width b) (height b)); [split; eauto |].
  destruct (compositor_outcome P b (log ++ [EvCreateImageBitmap f]))
    as [(r1 & R1 & _) (r2 & R2 & _)].
  rewrite R1, R2. split; [destruct r1 | destruct r2]; eauto.
Qed.

(** X1: [convertImage] never throws: whatever the file, the platform and the
    log so far, the call settles with a [ConversionResult]; in both
    variants. *)
Theorem convertImage_never_throws {num} {NUM : JSNumber num}
  (P : Platform num) (file : option File) (log : list (Event num)) :
  (exists r l, CropFill.convertImage P file log = (inr r, l))
  /\ (exists r l, BlurPad.convertImage P file log = (inr r, l)).
Proof. exact (convertImage_settles P file log). Qed.

(** X2: the platform calls of one [convertImage] call are appended to the
    log in pipeline order (decode, canvas creation, close, encode), each at
    most once; in both variants. *)
Theorem platform_calls_follow_the_pipeline {num} {NUM : JSNumber num}
  (P : Platform num) (file : option File) (log : list (Event num)) :
  (exists evs, snd (CropFill.convertImage P file log) = (log ++ evs)%list
               /\ StronglySorted lt (map stage evs))
  /\ (exists evs, snd (BlurPad.convertImage P file log) = (log ++ evs)%list
               /\ StronglySorted lt (map stage evs)).
Proof.
  assert (Nil : forall l : list (Event num),
             exists evs, l = (l ++ evs)%list
                         /\ StronglySorted lt (map stage evs)).
  { intros l. exists []. rewrite app_nil_r. split; [reflexivity | constructor]. }
  unfold CropFill.convertImage, BlurPad.convertImage.
  rewrite !convertImage_cases.
  destruct file as [f |]; [| split; apply Nil].
  destruct (validateFile f); [split; apply Nil |].
  destruct (createImageBitmap P f) as [e | b].
  { split; (eexists; split; [reflexivity | repeat constructor]). }
  destruct (validateDimensions (width b) (height b)).
  { split; (eexists; split; [reflexivity | repeat constructor]). }
  destruct (compositor_outcome P b (log ++ [EvCreateImageBitmap f]))
    as [(r1 & R1 & _) (r2 & R2 & _)].
  rewrite R1, R2. split; [destruct r1 | destruct r2]; simpl;
    rewrite <- ?app_assoc; simpl;
    (eexists; split; [reflexivity | repeat constructor]).
Qed.

(** X3: when the decoder rejects a valid file, the call returns
    DECODE_FAILED with the rejection's message ("Unknown error" for a
    non-Error value); the decode is its only platform call: nothing is
    closed, composited or encoded; in both variants. *)
Theorem decode_failure_is_reported {num} {NUM : JSNumber num}
  (P : Platform num) (f : File) (e : Thrown) (log : list (Event num)) :
  validateFile f = None ->
  createImageBitmap P f = inl e ->
  CropFill.convertImage P (Some f) log =
    (inr (Failure (DECODE_FAILED (message_of e))),
     (log ++ [EvCreateImageBitmap f])%list)
  /\ BlurPad.convertImage P (Some f) log =
    (inr (Failure (DECODE_FAILED (message_of e))),
     (log ++ [EvCreateImageBitmap f])%list).
Proof.
  intros Hf Hd. unfold CropFill.convertImage, BlurPad.convertImage.
  rewrite !convertImage_cases, Hf, Hd. split; reflexivity.
Qed.

Lemma decode_failure_is_reported_witness :
  CropFill.convertImage (Lab.no_decoder float) (Some Samples.photo) [] =
  (inr (Failure (DECODE_FAILED "Unknown error")),
   [EvCreateImageBitmap Samples.photo]).
Proof.
  exact (proj1 (decode_failure_is_reported (Lab.no_decoder float)
                  Samples.photo NonError [] eq_refl eq_refl)).
Defined.

(** X4: when the encoder yields no blob, the call returns
    CONVERSION_FAILED "Failed to create blob"; the bitmap was closed once
    before the encoder ran; in both variants. *)
Theorem encoder_failure_is_reported {num} {NUM : JSNumber num}
  (P : Platform num) (f : File) (b : ImageBitmap) :
  validateFile f = None ->
  createImageBitmap P f = inr b ->
  width b <= 4096 -> height b <= 4096 ->
  context2d_available P = true ->
  (forall c, toBlob P c "image/jpeg" JPEG_QUALITY = None) ->
  (exists c,
     CropFill.convertImage P (Some f) [] =
       (inr (Failure (CONVERSION_FAILED "Failed to create blob")),
        [EvCreateImageBitmap f; EvCreateCanvas; EvClose b; EvToBlob c]))
  /\ (exists c,
     BlurPad.convertImage P (Some f) [] =
       (inr (Failure (CONVERSION_FAILED "Failed to create blob")),
        [EvCreateImageBitmap f; EvCreateCanvas; EvClose b; EvToBlob c])).
Proof.
  intros Hf Hd Hw Hh Hctx Hblob.
  assert (He : validateDimensions (width b) (height b) = None).
  { rewrite validateDimensions_spec.
    destruct (Z_le_dec (width b) 4096), (Z_le_dec (height b) 4096);
      try reflexivity; lia. }
  unfold CropFill.convertImage, BlurPad.convertImage.
  rewrite !convertImage_cases, Hf, Hd, He.
  destruct (compositor_outcome P b ([] ++ [EvCreateImageBitmap f]))
    as [(r1 & R1 & O1) (r2 & R2 & O2)].
  rewrite R1, R2.
  split; [destruct r1 as [e | c] | destruct r2 as [e | c]];
    try (destruct O1; congruence); try (destruct O2; congruence);
    exists c; rewrite Hblob; reflexivity.
Qed.

Lemma encoder_failure_is_reported_witness :
  exists c,
    CropFill.convertImage (Lab.no_encoder float 4000 2000)
      (Some Samples.photo) [] =
    (inr (Failure (CONVERSION_FAILED "Failed to create blob")),
     [EvCreateImageBitmap Samples.photo; EvCreateCanvas;
      EvClose (Samples.bitmap 4000 2000); EvToBlob c]).
Proof.
  refine (proj1 (encoder_failure_is_reported (Lab.no_encoder float 4000 2000)
                   Samples.photo (Samples.bitmap 4000 2000)
                   eq_refl eq_refl _ _ eq_refl (fun _ => eq_refl)));
    discriminate.
Defined.

(** X5: a success result means that every stage passed: a file was given,
    within the size limit and of an allowed type; it decoded to a bitmap of
    at most 4096 in each dimension; a 1080x1920 canvas was composited; the
    blob is what the platform encoded from that canvas as "image/jpeg" at
    quality 0.9; the name is [generateFilename]'s; and the platform calls
    were decode, canvas creation, close, encode; in both variants. *)
Theorem success_means_every_stage_passed {num} {NUM : JSNumber num}
  (P : Platform num) (file : option File) (log l : list (Event num))
  (blob : Blob) (filename : string) :
  CropFill.convertImage P file log = (inr (Success blob filename), l)
  \/ BlurPad.convertImage P file log = (inr (Success blob filename), l) ->
  exists f b c,
    file = Some f
    /\ file_size f <= 10485760
    /\ (file_type f = "image/jpeg" \/ file_type f = "image/png")
    /\ createImageBitmap P f = inr b
    /\ width b <= 4096 /\ height b <= 4096
    /\ canvas_width c = 1080 /\ canvas_height c = 1920
    /\ toBlob P c "image/jpeg" (9 # 10) = Some blob
    /\ filename = generateFilename P
    /\ l = (log ++ [EvCreateImageBitmap f; EvCreateCanvas;
                    EvClose b; EvToBlob c])%list.
Proof.
  unfold CropFill.convertImage, BlurPad.convertImage.
  rewrite !convertImage_cases.
  destruct file as [f |]; [| intros [H | H]; discriminate].
  destruct (validateFile f) eqn:Hf; [intros [H | H]; discriminate |].
  apply validateFile_none in Hf. destruct Hf as [Hsz Hty].
  destruct (createImageBitmap P f) as [e | b] eqn:Hd;
    [intros [H | H]; discriminate |].
  destruct (validateDimensions (width b) (height b)) eqn:He;
    [intros [H | H]; discriminate |].
  rewrite validateDimensions_spec in He.
  destruct (Z_le_dec (width b) 4096) as [Hw |]; [| discriminate].
  destruct (Z_le_dec (height b) 4096) as [Hh |]; [| discriminate].
  destruct (compositor_outcome P b (log ++ [EvCreateImageBitmap f]))
    as [(r1 & R1 & O1) (r2 & R2 & O2)].
  rewrite R1, R2.
  intros [H | H].
  - destruct r1 as [e | c]; [discriminate |].
    destruct O1 as (_ & Hcw & Hch).
    change (9 # 10) with JPEG_QUALITY.
    destruct (toBlob P c "image/jpeg" JPEG_QUALITY) as [blob0 |] eqn:Hb;
      [| discriminate].
    inversion H; subst. exists f, b, c.
    rewrite <- !app_assoc. simpl. repeat split; auto.
  - destruct r2 as [e | c]; [discriminate |].
    destruct O2 as (_ & Hcw & Hch).
    change (9 # 10) with JPEG_QUALITY.
    destruct (toBlob P c "image/jpeg" JPEG_QUALITY) as [blob0 |] eqn:Hb;
      [| discriminate].
    inversion H; subst. exists f, b, c.
    rewrite <- !app_assoc. simpl. repeat split; auto.
Qed.

Lemma success_means_every_stage_passed_witness :
  exists f b c,
    Some Samples.photo = Some f
    /\ file_size f <= 10485760
    /\ (file_type f = "image/jpeg" \/ file_type f = "image/png")
    /\ createImageBitmap (Samples.browser float 4000 2000 true) f = inr b
    /\ width b <= 4096 /\ height b <= 4096
    /\ canvas_width c = 1080 /\ canvas_height c = 1920
    /\ toBlob (Samples.browser float 4000 2000 true) c "image/jpeg" (9 # 10)
       = Some Samples.jpeg_blob
    /\ "story_20240305_090702.jpg" =
       generateFilename (Samples.browser float 4000 2000 true)
    /\ snd (CropFill.convertImage (Samples.browser float 4000 2000 true)
              (Some Samples.photo) []) =
       ([] ++ [EvCreateImageBitmap f; EvCreateCanvas; EvClose b; EvToBlob c])%list.
Proof.
  exact (success_means_every_stage_passed
           (Samples.browser float 4000 2000 true) (Some Samples.photo) []
           (snd (CropFill.convertImage (Samples.browser float 4000 2000 true)
                   (Some Samples.photo) []))
           Samples.jpeg_blob "story_20240305_090702.jpg"
           (or_introl eq_refl)).
Defined.

(** [close_count_on_every_path] at two samples: a success and a guard
    rejection, one [close] each. *)
Lemma close_count_on_every_path_witness :
  close_count (Samples.bitmap 4000 2000)
    (snd (CropFill.convertImage (Samples.browser float 4000 2000 true)
            (Some Samples.photo) [])) = 1%nat
  /\ close_count (Samples.bitmap 5000 2000)
    (snd (BlurPad.convertImage (Samples.browser float 5000 2000 true)
            (Some Samples.photo) [])) = 1%nat.
Proof.
  split.
  - exact (proj1 (close_count_on_every_path
                    (Samples.browser float 4000 2000 true) Samples.photo
                    (Samples.bitmap 4000 2000) eq_refl eq_refl)).
  - exact (proj2 (close_count_on_every_path
                    (Samples.browser float 5000 2000 true) Samples.photo
                    (Samples.bitmap 5000 2000) eq_refl eq_refl)).
Defined.

(** ** Messages *)

(** X9: the message tells the kind of failure: two errors with the same
    message have the same [type] tag, whatever sizes the messages
    interpolate. *)
Theorem messages_distinguish_error_types (e1 e2 : ConversionError) :
  getErrorMessage e1 = getErrorMessage e2 -> error_type e1 = error_type e2.
Proof.
  intros H. apply (f_equal (substring 0 15)) in H.
  destruct e1, e2; try reflexivity; simpl in H; discriminate H.
Qed.

Lemma messages_distinguish_error_types_witness :
  error_type (FILE_TOO_LARGE 10485760 20000000) =
  error_type (FILE_TOO_LARGE 10485760 30000000).
Proof.
  exact (messages_distinguish_error_types (FILE_TOO_LARGE 10485760 20000000)
           (FILE_TOO_LARGE 10485760 30000000) eq_refl).
Defined.

Ltac one_of_them :=
  simpl; repeat (try (left; reflexivity); right); contradiction.

(** X10: whatever failure [convertImage] returns, its message is one of six
    fixed strings: the size message always names 10MB and the dimension
    message 4096px; in both variants. *)
Theorem failure_messages_are_fixed {num} {NUM : JSNumber num}
  (P : Platform num) (file : option File) (log l : list (Event num))
  (e : ConversionError) :
  CropFill.convertImage P file log = (inr (Failure e), l)
  \/ BlurPad.convertImage P file log = (inr (Failure e), l) ->
  In (getErrorMessage e) conversion_messages.
Proof.
  unfold CropFill.convertImage, BlurPad.convertImage.
  rewrite !convertImage_cases.
  assert (K : forall e0 (l0 : list (Event num)),
            In (getErrorMessage e0) conversion_messages ->
            (@inr Thrown _ (Failure e0), l0) = (inr (Failure e), l) ->
            In (getErrorMessage e) conversion_messages).
  { intros e0 l0 Hin E. inversion E; subst. exact Hin. }
  destruct file as [f |].
  2: { intros [H | H]; refine (K _ _ _ H); one_of_them. }
  unfold validateFile.
  destruct (file_size f >? MAX_FILE_SIZE).
  { intros [H | H]; refine (K _ _ _ H); one_of_them. }
  destruct (negb (includes ALLOWED_MIME_TYPES (file_type f))).
  { intros [H | H]; refine (K _ _ _ H); one_of_them. }
  destruct (createImageBitmap P f) as [d | b].
  { intros [H | H]; refine (K _ _ _ H); one_of_them. }
  unfold validateDimensions.
  destruct ((width b >? MAX_PIXEL_DIMENSION) || (height b >? MAX_PIXEL_DIMENSION)).
  { intros [H | H]; refine (K _ _ _ H); one_of_them. }
  destruct (compositor_outcome P b (log ++ [EvCreateImageBitmap f]))
    as [(r1 & R1 & _) (r2 & R2 & _)].
  rewrite R1, R2.
  intros [H | H]; [destruct r1 as [d | c] | destruct r2 as [d | c]];
    try (refine (K _ _ _ H); one_of_them);
    (destruct (toBlob P c "image/jpeg" JPEG_QUALITY); [discriminate |]);
    refine (K _ _ _ H); one_of_them.
Qed.

Lemma failure_messages_are_fixed_witness :
  In (getErrorMessage (FILE_TOO_LARGE 10485760 10485761)) conversion_messages
  /\ getErrorMessage (FILE_TOO_LARGE 10485760 10485761) =
     "ファイルサイズは10MB以下にしてください"
  /\ getErrorMessage (PIXEL_EXCEEDED 4096 5000 3000) =
     "画像サイズは4096px以下にしてください".
Proof.
  split; [| split; reflexivity].
  exact (failure_messages_are_fixed (Samples.browser float 100 100 true)
           (Some Samples.huge_gif) [] [] (FILE_TOO_LARGE 10485760 10485761)
           (or_introl eq_refl)).
Defined.

(** ** File names, read back *)

Lemma read_two_digits (n : Z) :
  0 <= n <= 99 -> read_decimal (two_digits n) = n.
Proof.
  intros H. apply Z.eqb_eq.
  apply (forall_between_spec
           (fun z => Z.eqb (read_decimal (two_digits z)) z) 0 99);
    [vm_compute; reflexivity | exact H].
Qed.

Lemma read_four_digits (n : Z) :
  1000 <= n <= 9999 -> read_decimal (four_digits n) = n.
Proof.
  intros H. apply Z.eqb_eq.
  apply (forall_between_spec
           (fun z => Z.eqb (read_decimal (four_digits z)) z) 1000 9999);
    [vm_compute; reflexivity | exact H].
Qed.

(** Reading the fields of a generated name gives back the clock. *)
Lemma parse_generateFilename {num} (P : Platform num) :
  local_time_in_range (clock P) ->
  parse_filename (generateFilename P) = clock P.
Proof.
  intros R.
  pose proof R as (Hy & Hmo & Hd & Hh & Hmi & Hs).
  assert (E : generateFilename P =
    "story_" ++ four_digits (getFullYear (clock P))
      ++ two_digits (getMonth (clock P) + 1) ++ two_digits (getDate (clock P))
      ++ "_" ++ two_digits (getHours (clock P))
      ++ two_digits (getMinutes (clock P)) ++ two_digits (getSeconds (clock P))
      ++ ".jpg").
  { unfold generateFilename.
    rewrite (toString_four_digits _ Hy).
    rewrite !pad_two_digits by lia. reflexivity. }
  rewrite E. unfold parse_filename.
  change (substring 6 4 _) with (four_digits (getFullYear (clock P))).
  change (substring 10 2 _) with (two_digits (getMonth (clock P) + 1)).
  change (substring 12 2 _) with (two_digits (getDate (clock P))).
  change (substring 15 2 _) with (two_digits (getHours (clock P))).
  change (substring 17 2 _) with (two_digits (getMinutes (clock P))).
  change (substring 19 2 _) with (two_digits (getSeconds (clock P))).
  rewrite read_four_digits by exact Hy.
  rewrite !read_two_digits by lia.
  destruct (clock P); simpl. f_equal. lia.
Qed.

(** X11: within the range of four-digit years, the file name determines the
    local time to the second: two clocks that give the same name show the
    same year, month, day, hour, minute and second. *)
Theorem generateFilename_injective {num} (P1 P2 : Platform num) :
  local_time_in_range (clock P1) ->
  local_time_in_range (clock P2) ->
  generateFilename P1 = generateFilename P2 ->
  clock P1 = clock P2.
Proof.
  intros R1 R2 E.
  rewrite <- (parse_generateFilename P1 R1), <- (parse_generateFilename P2 R2).
  now rewrite E.
Qed.

Lemma generateFilename_injective_witness :
  clock (Samples.browser float 4000 2000 true) =
  clock (Samples.browser float 100 100 false).
Proof.
  assert (R : local_time_in_range Samples.march_5th_2024).
  { unfold local_time_in_range. simpl. repeat split; discriminate. }
  exact (generateFilename_injective (Samples.browser float 4000 2000 true)
           (Samples.browser float 100 100 false) R R eq_refl).
Defined.

(** ** More geometry, in binary64 *)

Lemma crop_fill_aspect_binary64_witness :
  exists call,
    CropFill.convertToStorySize (Samples.browser float 1000 3000 true)
      (Samples.bitmap 1000 3000) [] =
      (inr {| canvas_width := 1080; canvas_height := 1920;
              canvas_drawn := [call] |}, [EvCreateCanvas])
    /\ PrimFloat.eqb (div (dc_sw call) (dc_sh call)) 0.5625%float = true.
Proof.
  refine (crop_fill_aspect_binary64 (Samples.browser float 1000 3000 true)
            (Samples.bitmap 1000 3000) [] _ _ eq_refl);
    split; discriminate.
Defined.

Lemma exact_aspect_binary64_witness :
  exists call,
    CropFill.convertToStorySize (Samples.browser float 1080 1920 true)
      (Samples.bitmap 1080 1920) [] =
      (inr {| canvas_width := 1080; canvas_height := 1920;
              canvas_drawn := [call] |}, [EvCreateCanvas])
    /\ (PrimFloat.eqb (dc_sx call) 0%float && PrimFloat.eqb (dc_sy call) 0%float
        && PrimFloat.eqb (dc_sw call) 1080%float
        && PrimFloat.eqb (dc_sh call) 1920%float)%bool = true.
Proof.
  refine (exact_aspect_binary64 (Samples.browser float 1080 1920 true)
            (Samples.bitmap 1080 1920) [] 120 _ eq_refl eq_refl eq_refl);
    split; discriminate.
Defined.

Lemma blur_pad_foreground_binary64_witness :
  exists bg fg,
    BlurPad.convertToStorySize (Samples.browser float 400 300 true)
      (Samples.bitmap 400 300) [] =
      (inr {| canvas_width := 1080; canvas_height := 1920;
              canvas_drawn := [bg; fg] |}, [EvCreateCanvas])
    /\ (PrimFloat.leb 0%float (dc_dx fg) && PrimFloat.leb 0%float (dc_dy fg)
        && PrimFloat.leb (add (dc_dx fg) (dc_dw fg)) 1080%float
        && PrimFloat.leb (add (dc_dy fg) (dc_dh fg)) 1920%float
        && (PrimFloat.eqb (dc_dw fg) 1080%float
            || PrimFloat.eqb (dc_dh fg) 1920%float))%bool = true.
Proof.
  refine (blur_pad_foreground_binary64 (Samples.browser float 400 300 true)
            (Samples.bitmap 400 300) [] _ _ eq_refl);
    split; discriminate.
Defined.

(** X19: in binary64, for every source up to 1024 pixels a side, the crop
    rectangle as computed lies within the source: its origin is not
    negative and origin plus size does not exceed the source's width and
    height. *)
Theorem crop_stays_inside_source_binary64 (P : Platform float)
  (b : ImageBitmap) (log : list (Event float)) :
  1 <= width b <= 1024 -> 1 <= height b <= 1024 ->
  context2d_available P = true ->
  exists call,
    CropFill.convertToStorySize P b log =
      (inr {| canvas_width := 1080; canvas_height := 1920;
              canvas_drawn := [call] |},
       (log ++ [EvCreateCanvas])%list)
    /\ (PrimFloat.leb 0%float (dc_sx call) && PrimFloat.leb 0%float (dc_sy call)
        && PrimFloat.leb (add (dc_sx call) (dc_sw call)) (of_Z (width b))
        && PrimFloat.leb (add (dc_sy call) (dc_sh call)) (of_Z (height b)))%bool
       = true.
Proof.
  intros Hw Hh Hctx.
  destruct (crop_fill_run P b log Hctx) as (call & R & _ & _ & S & _).
  exists call. split; [exact R |].
  destruct call as [fl im sx sy sw sh dx dy dw dh].
  unfold src_rect in S. cbv zeta in S.
  cbn [dc_sx dc_sy dc_sw dc_sh] in S |- *.
  change ((fun '(x, y, w, h) =>
             (PrimFloat.leb 0%float x && PrimFloat.leb 0%float y
              && PrimFloat.leb (add x w) (of_Z (width b))
              && PrimFloat.leb (add y h) (of_Z (height b)))%bool)
            (sx, sy, sw, sh) = true).
  rewrite S.
  by_table_check b 1 1024 Hw Hh.
Qed.

Lemma crop_stays_inside_source_binary64_witness :
  exists call,
    CropFill.convertToStorySize (Samples.browser float 1000 700 true)
      (Samples.bitmap 1000 700) [] =
      (inr {| canvas_width := 1080; canvas_height := 1920;
              canvas_drawn := [call] |}, [EvCreateCanvas])
    /\ (PrimFloat.leb 0%float (dc_sx call) && PrimFloat.leb 0%float (dc_sy call)
        && PrimFloat.leb (add (dc_sx call) (dc_sw call)) 1000%float
        && PrimFloat.leb (add (dc_sy call) (dc_sh call)) 700%float)%bool
       = true.
Proof.
  refine (crop_stays_inside_source_binary64
            (Samples.browser float 1000 700 true)
            (Samples.bitmap 1000 700) [] _ _ eq_refl);
    split; discriminate.
Defined.

(** X12: in binary64, for every source from 1 to 4096 pixels a side (all
    the dimension guard admits), the crop never reaches outside the source:
    the selected rectangle has positive size, its origin is not negative,
    origin plus size does not exceed the source's width and height, it is
    centred on the source's centre, and it keeps the full width or the full
    height (sums and halves as binary64 computes them). *)
Theorem crop_stays_inside_source (P : Platform float) (b : ImageBitmap)
  (log : list (Event float)) :
  1 <= width b <= 4096 -> 1 <= height b <= 4096 ->
  context2d_available P = true ->
  let w := of_Z (width b) in
  let h := of_Z (height b) in
  exists call,
    CropFill.convertToStorySize P b log =
      (inr {| canvas_width := 1080; canvas_height := 1920;
              canvas_drawn := [call] |},
       (log ++ [EvCreateCanvas])%list)
    /\ ((0 <? dc_sw call)%float = true /\ (0 <? dc_sh call)%float = true)
    /\ ((0 <=? dc_sx call)%float = true /\ (0 <=? dc_sy call)%float = true
        /\ (dc_sx call + dc_sw call <=? w)%float = true
        /\ (dc_sy call + dc_sh call <=? h)%float = true)
    /\ ((dc_sx call + dc_sw call / 2 =? w / 2)%float = true
        /\ (dc_sy call + dc_sh call / 2 =? h / 2)%float = true)
    /\ ((dc_sw call =? w) || (dc_sh call =? h))%float = true.
Proof.
  intros Hw Hh Hctx w h.
  destruct (crop_fill_run P b log Hctx) as (call & R & _ & _ & S & _).
  exists call. split; [exact R |].
  destruct call as [fl im sx sy sw sh dx dy dw dh].
  unfold src_rect in S. cbv zeta in S.
  cbn [dc_sx dc_sy dc_sw dc_sh] in S |- *.
  enough (K : ((0 <? sw) && (0 <? sh) && (0 <=? sx) && (0 <=? sy)
               && (sx + sw <=? w) && (sy + sh <=? h)
               && (sx + sw / 2 =? w / 2) && (sy + sh / 2 =? h / 2)
               && ((sw =? w) || (sh =? h)))%float = true).
  { rewrite !andb_true_iff in K. tauto. }
  subst w h.
  change ((fun '(x, y, w', h') =>
             ((0 <? w') && (0 <? h') && (0 <=? x) && (0 <=? y)
              && (x + w' <=? of_Z (width b)) && (y + h' <=? of_Z (height b))
              && (x + w' / 2 =? of_Z (width b) / 2)
              && (y + h' / 2 =? of_Z (height b) / 2)
              && ((w' =? of_Z (width b)) || (h' =? of_Z (height b))))%float)
            (sx, sy, sw, sh) = true).
  rewrite S. by_table_check b 1 4096 Hw Hh.
Qed.

Lemma crop_stays_inside_source_witness :
  exists call,
    CropFill.convertToStorySize (Samples.browser float 1000 3000 true)
      (Samples.bitmap 1000 3000) [] =
      (inr {| canvas_width := 1080; canvas_height := 1920;
              canvas_drawn := [call] |}, [EvCreateCanvas])
    /\ (0 <=? dc_sy call)%float = true
    /\ (dc_sy call + dc_sh call <=? 3000)%float = true.
Proof.
  assert (Hw : 1 <= width (Samples.bitmap 1000 3000) <= 4096)
    by (split; discriminate).
  assert (Hh : 1 <= height (Samples.bitmap 1000 3000) <= 4096)
    by (split; discriminate).
  destruct (crop_stays_inside_source (Samples.browser float 1000 3000 true)
              (Samples.bitmap 1000 3000) [] Hw Hh eq_refl)
    as (call & R & _ & (_ & Hy & _ & Hy') & _).
  exists call. split; [exact R |]. split; [exact Hy | exact Hy'].
Defined.

(** X13: in binary64, for every source from 1 to 4096 pixels a side, the
    blur-pad foreground has positive size and its width over its height
    differs from the input aspect w/h (as the code computes it) by at most
    2^-52 times that aspect: the image is not distorted beyond the last
    bit. *)
Theorem foreground_keeps_source_aspect (P : Platform float) (b : ImageBitmap)
  (log : list (Event float)) :
  1 <= width b <= 4096 -> 1 <= height b <= 4096 ->
  context2d_available P = true ->
  let inputAspect := (of_Z (width b) / of_Z (height b))%float in
  exists bg fg,
    BlurPad.convertToStorySize P b log =
      (inr {| canvas_width := 1080; canvas_height := 1920;
              canvas_drawn := [bg; fg] |},
       (log ++ [EvCreateCanvas])%list)
    /\ ((0 <? dc_dw fg)%float = true /\ (0 <? dc_dh fg)%float = true)
    /\ (abs (dc_dw fg / dc_dh fg - inputAspect)
          <=? inputAspect * 0x1p-52)%float = true.
Proof.
  intros Hw Hh Hctx inputAspect.
  destruct (blur_pad_run P b log Hctx)
    as (bg & fg & R & _ & _ & _ & _ & _ & _ & _ & D).
  exists bg, fg. split; [exact R |].
  destruct fg as [fl im sx sy sw sh dx dy dw dh].
  cbn [dc_dx dc_dy dc_dw dc_dh] in D |- *.
  enough (K : ((0 <? dw) && (0 <? dh)
               && (abs (dw / dh - inputAspect) <=? inputAspect * 0x1p-52))%float
              = true).
  { rewrite !andb_true_iff in K. tauto. }
  subst inputAspect.
  change ((fun '(x, y, w', h') =>
             ((0 <? w') && (0 <? h')
              && (abs (w' / h' - of_Z (width b) / of_Z (height b))
                  <=? of_Z (width b) / of_Z (height b) * 0x1p-52))%float)
            (dx, dy, dw, dh) = true).
  rewrite D. by_table_check b 1 4096 Hw Hh.
Qed.

Lemma foreground_keeps_source_aspect_witness :
  exists bg fg,
    BlurPad.convertToStorySize (Samples.browser float 3000 2019 true)
      (Samples.bitmap 3000 2019) [] =
      (inr {| canvas_width := 1080; canvas_height := 1920;
              canvas_drawn := [bg; fg] |}, [EvCreateCanvas])
    /\ (dc_dw fg / dc_dh fg)%float = 1.4858841010401187%float
    /\ (abs (dc_dw fg / dc_dh fg - 3000 / 2019)
          <=? 3000 / 2019 * 0x1p-52)%float = true.
Proof.
  assert (Hw : 1 <= width (Samples.bitmap 3000 2019) <= 4096)
    by (split; discriminate).
  assert (Hh : 1 <= height (Samples.bitmap 3000 2019) <= 4096)
    by (split; discriminate).
  destruct (foreground_keeps_source_aspect
              (Samples.browser float 3000 2019 true)
              (Samples.bitmap 3000 2019) [] Hw Hh eq_refl)
    as (bg & fg & R & _ & A).
  exists bg, fg. split; [exact R |]. split; [| exact A].
  vm_compute in R. injection R as <- <-. reflexivity.
Defined.

(** X14: in binary64, for every source from 1 to 4096 pixels a side, the
    blur-pad foreground covers the whole canvas, (0, 0, 1080, 1920),
    exactly when the source's dimensions are in the ratio 1080 : 1920
    (1920 * w = 1080 * h); for any other size some of the blurred
    background stays visible. *)
Theorem foreground_fills_canvas_iff (P : Platform float) (b : ImageBitmap)
  (log : list (Event float)) :
  1 <= width b <= 4096 -> 1 <= height b <= 4096 ->
  context2d_available P = true ->
  exists bg fg,
    BlurPad.convertToStorySize P b log =
      (inr {| canvas_width := 1080; canvas_height := 1920;
              canvas_drawn := [bg; fg] |},
       (log ++ [EvCreateCanvas])%list)
    /\ (((dc_dx fg =? 0) && (dc_dy fg =? 0)
         && (dc_dw fg =? 1080) && (dc_dh fg =? 1920))%float = true
        <-> 1920 * width b = 1080 * height b).
Proof.
  intros Hw Hh Hctx.
  destruct (blur_pad_run P b log Hctx)
    as (bg & fg & R & _ & _ & _ & _ & _ & _ & _ & D).
  exists bg, fg. split; [exact R |].
  destruct fg as [fl im sx sy sw sh dx dy dw dh].
  cbn [dc_dx dc_dy dc_dw dc_dh] in D |- *.
  split.
  - (* a foreground that fills the canvas comes from a 9:16 source *)
    intros F. apply Z.eqb_eq.
    enough (K : (if ((dx =? 0) && (dy =? 0)
                     && (dw =? 1080) && (dh =? 1920))%float
                 then 1920 * width b =? 1080 * height b
                 else true) = true).
    { now rewrite F in K. }
    change ((fun '(x, y, w', h') =>
               if ((x =? 0) && (y =? 0) && (w' =? 1080) && (h' =? 1920))%float
               then 1920 * width b =? 1080 * height b
               else true) (dx, dy, dw, dh) = true).
    rewrite D. by_table_check b 1 4096 Hw Hh.
  - (* a 9:16 source fills the canvas *)
    intros E.
    assert (Hd : (16 | height b)).
    { apply (Z.gauss 16 9); [exists (width b); lia | reflexivity]. }
    destruct Hd as [k Hd].
    assert (Eh : height b = 16 * k) by lia.
    assert (Ew : width b = 9 * k) by lia.
    assert (Hk : 1 <= k <= 256) by lia.
    rewrite Ew, Eh in D.
    change ((fun '(x, y, w', h') =>
               ((x =? 0) && (y =? 0) && (w' =? 1080) && (h' =? 1920))%float)
              (dx, dy, dw, dh) = true).
    rewrite D. by_range_check k 1 256 Hk.
Qed.

Lemma foreground_fills_canvas_iff_witness :
  exists bg fg,
    BlurPad.convertToStorySize (Samples.browser float 1080 1920 true)
      (Samples.bitmap 1080 1920) [] =
      (inr {| canvas_width := 1080; canvas_height := 1920;
              canvas_drawn := [bg; fg] |}, [EvCreateCanvas])
    /\ ((dc_dx fg =? 0) && (dc_dy fg =? 0)
        && (dc_dw fg =? 1080) && (dc_dh fg =? 1920))%float = true.
Proof.
  assert (Hw : 1 <= width (Samples.bitmap 1080 1920) <= 4096)
    by (split; discriminate).
  assert (Hh : 1 <= height (Samples.bitmap 1080 1920) <= 4096)
    by (split; discriminate).
  destruct (foreground_fills_canvas_iff (Samples.browser float 1080 1920 true)
              (Samples.bitmap 1080 1920) [] Hw Hh eq_refl)
    as (bg & fg & R & [_ H]).
  exists bg, fg. split; [exact R | exact (H eq_refl)].
Defined.

(** * Properties of the download helper and of the page *)

(** ** [downloadBlob] *)

Lemma filter_out_fresh (l : list nat) (n : nat) :
  Forall (fun m => (m < n)%nat) l ->
  filter (fun m => negb (Nat.eqb m n)) l = l.
Proof.
  induction 1 as [| m l Hm _ IH]; [reflexivity |].
  simpl. destruct (Nat.eqb_spec m n); [lia |]. simpl. now rewrite IH.
Qed.

Lemma filter_out_last (l : list nat) (n : nat) :
  Forall (fun m => (m < n)%nat) l ->
  filter (fun m => negb (Nat.eqb m n)) (l ++ [n]) = l.
Proof.
  intros H. rewrite filter_app, (filter_out_fresh l n H). simpl.
  rewrite Nat.eqb_refl. simpl. apply app_nil_r.
Qed.

Lemma existsb_last (l : list nat) (n : nat) :
  existsb (Nat.eqb n) (l ++ [n]) = true.
Proof.
  rewrite existsb_app. simpl. rewrite Nat.eqb_refl. apply orb_true_iff.
  right. reflexivity.
Qed.

Lemma revoke_fresh_entries (l : list (nat * Resource)) (n : nat) :
  Forall (fun entry => (fst entry < n)%nat) l ->
  filter (fun entry => negb (Nat.eqb (fst entry) n)) l = l.
Proof.
  induction 1 as [| e l He _ IH]; [reflexivity |].
  simpl. destruct (Nat.eqb_spec (fst e) n); [lia |]. simpl. now rewrite IH.
Qed.

Lemma revoke_last_entry (l : list (nat * Resource)) (n : nat) (r : Resource) :
  Forall (fun entry => (fst entry < n)%nat) l ->
  filter (fun entry => negb (Nat.eqb (fst entry) n)) (l ++ [(n, r)]) = l.
Proof.
  intros H. rewrite filter_app, (revoke_fresh_entries l n H). simpl.
  rewrite Nat.eqb_refl. simpl. apply app_nil_r.
Qed.

Lemma find_last_entry (l : list (nat * Resource)) (n : nat) (r : Resource) :
  Forall (fun entry => (fst entry < n)%nat) l ->
  find (fun entry => Nat.eqb (fst entry) n) (l ++ [(n, r)]) = Some (n, r).
Proof.
  induction 1 as [| e l He _ IH]; simpl.
  - now rewrite Nat.eqb_refl.
  - destruct (Nat.eqb_spec (fst e) n); [lia | exact IH].
Qed.

Lemma downloadBlob_run (blob : Blob) (filename : string) (d : Dom) :
  dom_wf d ->
  exists d',
    downloadBlob blob filename d = (inr tt, d')
    /\ downloads d' = (downloads d ++ [(Some (ResBlob blob), filename)])%list
    /\ body d' = body d
    /\ object_urls d' = object_urls d
    /\ input_file d' = input_file d
    /\ dom_wf d'.
Proof.
  intros [Hb Hu]. unfold downloadBlob. simpl.
  unfold DOM.removeChild, DOM.appendChild, DOM.click, DOM.lookup_url. simpl.
  rewrite (filter_out_fresh _ _ Hb), existsb_last.
  eexists. split; [reflexivity |]. unfold dom_wf. simpl.
  rewrite !(filter_out_last _ _ Hb), !(revoke_last_entry _ _ _ Hu),
    (find_last_entry _ _ _ Hu).
  repeat split; simpl.
  - eapply Forall_impl; [| exact Hb]. simpl. lia.
  - eapply Forall_impl; [| exact Hu]. simpl. lia.
Qed.

(** X20: in a document whose node and URL numbers are below the counters,
    [downloadBlob] does not throw, starts exactly one download, of the
    given blob under the given name (the object URL is still live when the
    anchor is clicked), and leaves no trace: the children of [body] and
    the live object URLs are what they were. *)
Theorem downloadBlob_leaves_no_trace (blob : Blob) (filename : string)
  (d : Dom) :
  dom_wf d ->
  exists d',
    downloadBlob blob filename d = (inr tt, d')
    /\ downloads d' = (downloads d ++ [(Some (ResBlob blob), filename)])%list
    /\ body d' = body d
    /\ object_urls d' = object_urls d
    /\ input_file d' = input_file d
    /\ dom_wf d'.
Proof. exact (downloadBlob_run blob filename d). Qed.

Lemma downloadBlob_leaves_no_trace_witness :
  exists d',
    downloadBlob Samples.jpeg_blob "story_20240305_090702.jpg" Lab.document
      = (inr tt, d')
    /\ downloads d' =
       [(Some (ResBlob Samples.jpeg_blob), "story_20240305_090702.jpg")]
    /\ body d' = [0; 1]%nat
    /\ object_urls d' = [].
Proof.
  assert (W : dom_wf Lab.document).
  { split; simpl; repeat constructor. }
  destruct (downloadBlob_leaves_no_trace Samples.jpeg_blob
              "story_20240305_090702.jpg" Lab.document W)
    as (d' & R & Hd & Hb & Hu & _).
  exists d'. split; [exact R |]. split; [exact Hd |].
  split; [exact Hb | exact Hu].
Defined.

(** ** The page handlers *)

Lemma lookup_after_revoke (u : ObjectUrl) (d : Dom) :
  DOM.lookup_url u (DOM.revokeObjectURL u d) = None.
Proof.
  unfold DOM.lookup_url, DOM.revokeObjectURL. simpl.
  induction (object_urls d) as [| e l IH]; [reflexivity |].
  simpl. destruct (Nat.eqb (fst e) (url_number u)) eqn:E; simpl.
  - exact IH.
  - rewrite E. exact IH.
Qed.

(** X21: [handleReset] brings the page back to its initial state from any
    state: status idle, no error, no file name, no preview, the file input
    cleared; the preview's object URL, if there was one, is no longer
    live; the document body and the downloads are untouched. *)
Theorem handleReset_restores_the_initial_page (s : Page.State) (d : Dom) :
  fst (Page.handleReset s d) = Page.initial
  /\ input_file (snd (Page.handleReset s d)) = None
  /\ (forall u, Page.previewUrl s = Some u ->
                DOM.lookup_url u (snd (Page.handleReset s d)) = None)
  /\ body (snd (Page.handleReset s d)) = body d
  /\ downloads (snd (Page.handleReset s d)) = downloads d.
Proof.
  unfold Page.handleReset.
  destruct (Page.previewUrl s) as [u |]; simpl.
  - repeat split. intros u' H. injection H as <-.
    apply (lookup_after_revoke u (DOM.clear_input d)).
  - repeat split. discriminate.
Qed.

(** X22: choosing a file sets the file name, status idle and no error, and
    swaps the preview: a fresh object URL for the chosen file becomes the
    preview and resolves to that file, and the previous preview URL is
    revoked. *)
Theorem handleFileChange_swaps_the_preview (s : Page.State) (d : Dom)
  (f : File) :
  input_file d = Some f ->
  dom_wf d ->
  (forall old, Page.previewUrl s = Some old ->
               (url_number old < next_url d)%nat) ->
  exists u,
    fst (Page.handleFileChange s d) =
      {| Page.status := Page.StIdle; Page.error := None;
         Page.selectedFileName := Some (file_name f);
         Page.previewUrl := Some u |}
    /\ DOM.lookup_url u (snd (Page.handleFileChange s d)) = Some (ResFile f)
    /\ (forall old, Page.previewUrl s = Some old ->
                    DOM.lookup_url old (snd (Page.handleFileChange s d)) = None)
    /\ dom_wf (snd (Page.handleFileChange s d)).
Proof.
  intros Hf [Hb Hu] Hold. unfold Page.handleFileChange. rewrite Hf.
  exists (BlobUrl (next_url d)).
  assert (K : forall l : list (nat * Resource),
            Forall (fun entry => (fst entry < next_url d)%nat) l ->
            forall n, (n < next_url d)%nat ->
            find (fun entry => Nat.eqb (fst entry) n)
              (filter (fun entry => negb (Nat.eqb (fst entry) n)) l
                 ++ [(next_url d, ResFile f)]) = None).
  { intros l Hl n Hn. induction Hl as [| e l He _ IH]; simpl.
    - destruct (Nat.eqb_spec (next_url d) n); [lia | reflexivity].
    - destruct (Nat.eqb (fst e) n) eqn:E; simpl; [exact IH |].
      rewrite E. exact IH. }
  destruct (Page.previewUrl s) as [old |]; simpl.
  - assert (Hu' : Forall (fun entry => (fst entry < next_url d)%nat)
                    (filter (fun entry =>
                               negb (Nat.eqb (fst entry) (url_number old)))
                       (object_urls d)))
      by exact (incl_Forall (incl_filter _ _) Hu).
    split; [reflexivity |]. split; [| split].
    + unfold DOM.lookup_url. simpl. now rewrite (find_last_entry _ _ _ Hu').
    + intros old' H. injection H as <-. unfold DOM.lookup_url. simpl.
      rewrite (K _ Hu _ (Hold old eq_refl)). reflexivity.
    + split; simpl; [exact Hb |]. apply Forall_app. split.
      * eapply Forall_impl; [| exact Hu']. simpl. lia.
      * repeat constructor.
  - split; [reflexivity |]. split; [| split].
    + unfold DOM.lookup_url. simpl. now rewrite (find_last_entry _ _ _ Hu).
    + discriminate.
    + split; simpl; [exact Hb |]. apply Forall_app. split.
      * eapply Forall_impl; [| exact Hu]. simpl. lia.
      * repeat constructor.
Qed.

Lemma handleFileChange_swaps_the_preview_witness :
  exists u,
    fst (Page.handleFileChange Page.initial
           (DOM.choose_file (Some Samples.photo) Lab.document)) =
      {| Page.status := Page.StIdle; Page.error := None;
         Page.selectedFileName := Some "photo.jpg";
         Page.previewUrl := Some u |}
    /\ DOM.lookup_url u
         (snd (Page.handleFileChange Page.initial
                 (DOM.choose_file (Some Samples.photo) Lab.document))) =
       Some (ResFile Samples.photo).
Proof.
  assert (W : dom_wf (DOM.choose_file (Some Samples.photo) Lab.document)).
  { split; simpl; repeat constructor. }
  destruct (handleFileChange_swaps_the_preview Page.initial
              (DOM.choose_file (Some Samples.photo) Lab.document)
              Samples.photo eq_refl W)
    as (u & E & L & _).
  - discriminate.
  - exists u. split; [exact E | exact L].
Defined.

Lemma handleConvert_finish_settles (r : ConversionResult) (s : Page.State)
  (d : Dom) :
  dom_wf d ->
  conversion_settled r s d
    (Page.handleConvert_finish r
       {| Page.status := Page.StProcessing; Page.error := None;
          Page.selectedFileName := Page.selectedFileName s;
          Page.previewUrl := Page.previewUrl s |} d).
Proof.
  intros W. destruct r as [blob filename | e]; simpl.
  - destruct (downloadBlob_run blob filename d W)
      as (d' & R & Hd & Hb & Hu & _).
    rewrite R. simpl. repeat split; auto.
  - repeat split.
Qed.

(** X23: a conversion started from the page, with nothing else happening
    meanwhile, converts the file input's selection and never stays in
    status processing: when [convertImage] settles with a success, the page
    ends in status success with the success banner and exactly one
    download, of that result's blob under that result's file name; when it
    settles with a failure, the page ends in status error with that
    failure's error and the banner showing its message, and no download;
    file name, preview, document body and live URLs are as before; with
    either variant of [convertImage]. *)
Theorem handleConvert_ends_in_success_or_error {num} {NUM : JSNumber num}
  (P : Platform num) (s : Page.State) (d : Dom) (log : list (Event num)) :
  dom_wf d ->
  (exists r l,
     CropFill.convertImage P (input_file d) log = (inr r, l)
     /\ snd (Page.handleConvert (CropFill.convertImage P) s d log) = l
     /\ conversion_settled r s d
          (fst (Page.handleConvert (CropFill.convertImage P) s d log)))
  /\ (exists r l,
     BlurPad.convertImage P (input_file d) log = (inr r, l)
     /\ snd (Page.handleConvert (BlurPad.convertImage P) s d log) = l
     /\ conversion_settled r s d
          (fst (Page.handleConvert (BlurPad.convertImage P) s d log))).
Proof.
  intros W. unfold Page.handleConvert, Page.handleConvert_start.
  destruct (convertImage_settles P (input_file d) log)
    as [(r1 & l1 & E1) (r2 & l2 & E2)].
  rewrite E1, E2.
  pose proof (handleConvert_finish_settles r1 s d W) as H1.
  pose proof (handleConvert_finish_settles r2 s d W) as H2.
  destruct (Page.handleConvert_finish r1 _ d) as [s1 d1].
  destruct (Page.handleConvert_finish r2 _ d) as [s2 d2].
  split; [exists r1, l1 | exists r2, l2];
    (split; [reflexivity | split; [reflexivity | assumption]]).
Qed.

Lemma handleConvert_ends_in_success_or_error_witness :
  let d := DOM.choose_file (Some Samples.photo) Lab.document in
  let out :=
    fst (Page.handleConvert
           (CropFill.convertImage (Samples.browser float 4000 2000 true))
           Page.initial d []) in
  conversion_settled
    (Success Samples.jpeg_blob "story_20240305_090702.jpg") Page.initial d out
  /\ Page.status (fst out) = Page.StSuccess
  /\ downloads (snd out) =
     [(Some (ResBlob Samples.jpeg_blob), "story_20240305_090702.jpg")].
Proof.
  intros d out.
  assert (W : dom_wf d) by (split; simpl; repeat constructor).
  split; [| split; reflexivity].
  destruct (proj1 (handleConvert_ends_in_success_or_error
                     (Samples.browser float 4000 2000 true) Page.initial d [] W))
    as (r & l & E & _ & H).
  vm_compute in E. injection E as <- _. exact H.
Defined.

(** ** Sessions: any interleaving of user actions and continuations *)

Lemma downloadBlob_next_url (blob : Blob) (filename : string) (d : Dom) :
  next_url (snd (downloadBlob blob filename d)) = S (next_url d).
Proof.
  unfold downloadBlob, DOM.removeChild. simpl.
  destruct (existsb _ _); reflexivity.
Qed.

Section SessionFacts.

Context {num : Type}.
Variable convertImage : option File -> M num ConversionResult.
Variable d0 : Dom.

Lemma step_keeps_session_ok (x : Page.Session num) (a : Page.Action) :
  session_ok d0 x -> session_ok d0 (Page.step convertImage x a).
Proof.
  intros (W & Hb & Hd & He & Hp).
  destruct x as [s d log pend]. simpl in *.
  destruct W as [Wb Wu].
  destruct a as [[f |] | | | i]; simpl.
  - (* a file is picked *)
    unfold Page.handleFileChange. simpl.
    assert (Wu' : forall l,
              Forall (fun entry => (fst entry < next_url d)%nat) l ->
              Forall (fun entry => (fst entry < S (next_url d))%nat)
                (l ++ [(next_url d, ResFile f)])).
    { intros l Hl. apply Forall_app. split.
      - eapply Forall_impl; [| exact Hl]. simpl. lia.
      - repeat constructor. }
    destruct (Page.previewUrl s) as [old |]; simpl;
      (split; [split; simpl; [exact Wb |] | repeat split; simpl;
               try assumption; try discriminate]).
    + apply Wu'. exact (incl_Forall (incl_filter _ _) Wu).
    + intros u H. injection H as <-. simpl. lia.
    + apply Wu'. exact Wu.
    + intros u H. injection H as <-. simpl. lia.
  - (* the dialog is dismissed *)
    unfold Page.handleFileChange. simpl.
    repeat split; simpl; try assumption. discriminate.
  - (* convert is clicked *)
    destruct (negb (Page.truthy (Page.selectedFileName s))
              || match Page.status s with
                 | Page.StProcessing => true
                 | _ => false
                 end); [repeat split; assumption |].
    unfold Page.handleConvert_start.
    destruct (convertImage (input_file d) log) as [[e | r] log'];
      repeat split; simpl; try assumption; discriminate.
  - (* reset is clicked *)
    destruct (Page.truthy (Page.selectedFileName s)
              || match Page.status s with
                 | Page.StIdle => false
                 | _ => true
                 end); [| repeat split; assumption].
    unfold Page.handleReset.
    destruct (Page.previewUrl s) as [old |]; simpl;
      repeat split; simpl; try assumption; try discriminate.
    exact (incl_Forall (incl_filter _ _) Wu).
  - (* a continuation runs *)
    destruct (nth_error pend i) as [[blob filename | e] |]; simpl.
    + destruct (downloadBlob_run blob filename d (conj Wb Wu))
        as (d' & R & Hd' & Hb' & Hu' & _ & W').
      rewrite R. simpl. repeat split; simpl; try apply W'.
      * congruence.
      * rewrite Hd'. apply Forall_app. split; [exact Hd |].
        repeat constructor. exists blob. reflexivity.
      * discriminate.
      * intros u H. destruct W' as [_ W'].
        specialize (Hp u H).
        pose proof (downloadBlob_next_url blob filename d) as N.
        rewrite R in N. simpl in N. lia.
    + repeat split; simpl; try assumption. discriminate.
    + repeat split; assumption.
Qed.

Lemma run_keeps_session_ok (actions : list Page.Action) :
  forall x, session_ok d0 x ->
            session_ok d0 (Page.run convertImage x actions).
Proof.
  induction actions as [| a rest IH]; intros x H; [exact H |].
  simpl. apply IH, step_keeps_session_ok, H.
Qed.

Lemma start_is_ok :
  dom_wf d0 -> Forall is_blob_download (downloads d0) ->
  session_ok d0 (@Page.start num d0).
Proof.
  intros W Hd. repeat split; simpl; try apply W; try assumption; discriminate.
Qed.

End SessionFacts.

Section Hygiene.

Context {num : Type}.
Variable convertImage : option File -> M num ConversionResult.
Variable d0 : Dom.

Lemma step_keeps_only_preview_live (x : Page.Session num) (a : Page.Action) :
  session_ok d0 x ->
  a <> Page.Pick None ->
  only_preview_is_live (Page.ui x) (Page.dom x) ->
  only_preview_is_live (Page.ui (Page.step convertImage x a))
    (Page.dom (Page.step convertImage x a)).
Proof.
  intros (W & _) Ha H.
  destruct x as [s d log pend]. unfold only_preview_is_live in *. simpl in *.
  destruct a as [[f |] | | | i]; simpl.
  - unfold Page.handleFileChange. simpl.
    destruct (Page.previewUrl s) as [old |]; simpl.
    + destruct H as [r H]. rewrite H. simpl. rewrite Nat.eqb_refl. simpl.
      eexists. reflexivity.
    + rewrite H. eexists. reflexivity.
  - congruence.
  - destruct (negb (Page.truthy (Page.selectedFileName s))
              || match Page.status s with
                 | Page.StProcessing => true
                 | _ => false
                 end); [exact H |].
    unfold Page.handleConvert_start.
    destruct (convertImage (input_file d) log) as [[e | r] log']; exact H.
  - destruct (Page.truthy (Page.selectedFileName s)
              || match Page.status s with
                 | Page.StIdle => false
                 | _ => true
                 end); [| exact H].
    unfold Page.handleReset.
    destruct (Page.previewUrl s) as [old |]; simpl; [| exact H].
    destruct H as [r H]. rewrite H. simpl. now rewrite Nat.eqb_refl.
  - destruct (nth_error pend i) as [[blob filename | e] |]; simpl;
      [| exact H | exact H].
    destruct (downloadBlob_run blob filename d W) as (d' & R & _ & _ & Hu & _).
    rewrite R. simpl. rewrite Hu. exact H.
Qed.

End Hygiene.

(** X24: the page leaves the document as it found it, whatever happens in
    whatever order (files picked, dialogs dismissed, buttons clicked,
    conversions resuming late or out of order): the children of [body] are
    those at load time, and every download it ever starts resolves to a
    blob, never to a revoked URL. *)
Theorem page_leaves_the_document_alone {num}
  (convertImage : option File -> M num ConversionResult) (d0 : Dom)
  (actions : list Page.Action) :
  dom_wf d0 ->
  downloads d0 = [] ->
  body (Page.dom (Page.run convertImage (Page.start d0) actions)) = body d0
  /\ Forall is_blob_download
       (downloads (Page.dom (Page.run convertImage (Page.start d0) actions))).
Proof.
  intros W Hd.
  assert (S0 : session_ok d0 (@Page.start num d0)).
  { apply start_is_ok; [exact W |]. rewrite Hd. constructor. }
  destruct (run_keeps_session_ok convertImage d0 actions _ S0)
    as (_ & Hb & Hdl & _).
  split; assumption.
Qed.

(** X25: whenever the page is in status error, the error banner shows a
    message, in every reachable state (a failed conversion sets error and
    status together, and everything that clears the error also leaves the
    error status). *)
Theorem error_status_always_shows_a_message {num}
  (convertImage : option File -> M num ConversionResult) (d0 : Dom)
  (actions : list Page.Action) :
  dom_wf d0 ->
  downloads d0 = [] ->
  Page.status (Page.ui (Page.run convertImage (Page.start d0) actions))
    = Page.StError ->
  exists e,
    Page.error_banner
      (Page.render (Page.ui (Page.run convertImage (Page.start d0) actions)))
    = Some (getErrorMessage e).
Proof.
  intros W Hd Hs.
  assert (S0 : session_ok d0 (@Page.start num d0)).
  { apply start_is_ok; [exact W |]. rewrite Hd. constructor. }
  destruct (run_keeps_session_ok convertImage d0 actions _ S0)
    as (_ & _ & _ & He & _).
  specialize (He Hs). unfold Page.render. simpl. rewrite Hs.
  destruct (Page.error _) as [e |]; [| congruence].
  exists e. reflexivity.
Qed.

(** X26: as long as the file dialog is never dismissed without a file, the
    page leaks no object URL, whatever else happens in whatever order: the
    only live object URL is the current preview's, and none is live when
    there is no preview. *)
Theorem no_object_url_leaks {num}
  (convertImage : option File -> M num ConversionResult) (d0 : Dom)
  (actions : list Page.Action) :
  dom_wf d0 ->
  downloads d0 = [] ->
  object_urls d0 = [] ->
  Forall (fun a => a <> Page.Pick None) actions ->
  only_preview_is_live
    (Page.ui (Page.run convertImage (Page.start d0) actions))
    (Page.dom (Page.run convertImage (Page.start d0) actions)).
Proof.
  intros W Hd Hu Hact.
  assert (S0 : session_ok d0 (@Page.start num d0)).
  { apply start_is_ok; [exact W |]. rewrite Hd. constructor. }
  assert (H0 : only_preview_is_live (Page.ui (@Page.start num d0))
                 (Page.dom (@Page.start num d0))) by exact Hu.
  revert S0 H0. generalize (@Page.start num d0).
  induction Hact as [| a rest Ha _ IH]; intros x Sx Hx; [exact Hx |].
  simpl. apply IH.
  - apply step_keeps_session_ok, Sx.
  - apply step_keeps_only_preview_live with (d0 := d0); assumption.
Qed.

(** X27: dismissing the file dialog after a file was chosen clears the file
    name and the preview but revokes nothing: the object URL created for
    the preview stays live with no preview referring to it (so the
    condition of [no_object_url_leaks] cannot be dropped). *)
Theorem dismissal_leaves_a_live_url {num}
  (convertImage : option File -> M num ConversionResult) (d0 : Dom)
  (f : File) :
  object_urls d0 = [] ->
  let x := Page.run convertImage (Page.start d0)
             [Page.Pick (Some f); Page.Pick None] in
  Page.previewUrl (Page.ui x) = None
  /\ Page.selectedFileName (Page.ui x) = None
  /\ object_urls (Page.dom x) = [(next_url d0, ResFile f)]
  /\ ~ only_preview_is_live (Page.ui x) (Page.dom x).
Proof.
  intros Hu. simpl. unfold Page.handleFileChange. simpl. rewrite Hu. simpl.
  repeat split. unfold only_preview_is_live. simpl. discriminate.
Qed.

Lemma dismissal_leaves_a_live_url_witness :
  object_urls
    (Page.dom
       (Page.run (CropFill.convertImage (Samples.browser float 4000 2000 true))
          (Page.start Lab.document)
          [Page.Pick (Some Samples.photo); Page.Pick None])) =
  [(0%nat, ResFile Samples.photo)].
Proof.
  exact (proj1 (proj2 (proj2
           (dismissal_leaves_a_live_url
              (CropFill.convertImage (Samples.browser float 4000 2000 true))
              Lab.document Samples.photo eq_refl)))).
Defined.

Lemma page_leaves_the_document_alone_witness :
  let x :=
    Page.run (CropFill.convertImage (Samples.browser float 4000 2000 true))
      (Page.start Lab.document)
      [Page.Pick (Some Samples.photo); Page.ClickConvert;
       Page.Pick None; Page.Resume 0; Page.ClickReset] in
  body (Page.dom x) = [0; 1]%nat
  /\ Forall is_blob_download (downloads (Page.dom x))
  /\ List.length (downloads (Page.dom x)) = 1%nat.
Proof.
  intros x.
  assert (W : dom_wf Lab.document) by (split; simpl; repeat constructor).
  split; [| split; [| reflexivity]].
  - exact (proj1 (page_leaves_the_document_alone
                    (CropFill.convertImage (Samples.browser float 4000 2000 true))
                    Lab.document _ W eq_refl)).
  - exact (proj2 (page_leaves_the_document_alone
                    (CropFill.convertImage (Samples.browser float 4000 2000 true))
                    Lab.document _ W eq_refl)).
Defined.

Lemma error_status_always_shows_a_message_witness :
  exists e,
    Page.error_banner
      (Page.render
         (Page.ui
            (Page.run
               (BlurPad.convertImage (Samples.browser float 4000 2000 true))
               (Page.start Lab.document)
               [Page.Pick (Some Samples.huge_gif); Page.ClickConvert;
                Page.Resume 0])))
    = Some (getErrorMessage e).
Proof.
  assert (W : dom_wf Lab.document) by (split; simpl; repeat constructor).
  exact (error_status_always_shows_a_message
           (BlurPad.convertImage (Samples.browser float 4000 2000 true))
           Lab.document
           [Page.Pick (Some Samples.huge_gif); Page.ClickConvert; Page.Resume 0]
           W eq_refl eq_refl).
Defined.

Lemma no_object_url_leaks_witness :
  only_preview_is_live
    (Page.ui
       (Page.run (CropFill.convertImage (Samples.browser float 4000 2000 true))
          (Page.start Lab.document)
          [Page.Pick (Some Samples.photo); Page.ClickConvert;
           Page.Pick (Some Samples.huge_gif); Page.Resume 0]))
    (Page.dom
       (Page.run (CropFill.convertImage (Samples.browser float 4000 2000 true))
          (Page.start Lab.document)
          [Page.Pick (Some Samples.photo); Page.ClickConvert;
           Page.Pick (Some Samples.huge_gif); Page.Resume 0])).
Proof.
  assert (W : dom_wf Lab.document) by (split; simpl; repeat constructor).
  apply (no_object_url_leaks
           (CropFill.convertImage (Samples.browser float 4000 2000 true))
           Lab.document
           [Page.Pick (Some Samples.photo); Page.ClickConvert;
            Page.Pick (Some Samples.huge_gif); Page.Resume 0]
           W eq_refl eq_refl).
  repeat constructor; discriminate.
Defined.

(** ** Two more facts about the library *)

(** X7: [validateFile] accepts a file exactly when its size is at most
    10485760 bytes and its declared type is "image/jpeg" or "image/png";
    a file of exactly 10485760 bytes, or an empty one, passes the size
    check. *)
Theorem validateFile_accepts_exactly (f : File) :
  validateFile f = None <->
  file_size f <= 10485760
  /\ (file_type f = "image/jpeg" \/ file_type f = "image/png").
Proof. exact (validateFile_none f). Qed.

(** X8: whatever the bitmap's dimensions (zero and negative ones included)
    and whichever arithmetic evaluates the geometry, each compositor
    creates exactly one canvas, throws exactly when no 2D context is
    available, and otherwise returns a canvas of exactly 1080x1920. *)
Theorem output_canvas_is_always_1080x1920 {num} {NUM : JSNumber num}
  (P : Platform num) (b : ImageBitmap) (log : list (Event num)) :
  (exists r, CropFill.convertToStorySize P b log =
               (r, (log ++ [EvCreateCanvas])%list)
             /\ match r with
                | inl e => context2d_available P = false
                           /\ e = ErrorObject "Canvas context not available"
                | inr c => context2d_available P = true
                           /\ canvas_width c = 1080 /\ canvas_height c = 1920
                end)
  /\ (exists r, BlurPad.convertToStorySize P b log =
               (r, (log ++ [EvCreateCanvas])%list)
             /\ match r with
                | inl e => context2d_available P = false
                           /\ e = ErrorObject "Canvas context not available"
                | inr c => context2d_available P = true
                           /\ canvas_width c = 1080 /\ canvas_height c = 1920
                end).
Proof. exact (compositor_outcome P b log). Qed.
